(** * SendspinMpris: the MPRIS bridge of aiosendspin-mpris

  A shallow embedding of [src/aiosendspin_mpris/mpris.py].  The class
  [SendspinMpris] is a record of its attributes; its methods are
  computations of a small state-and-exception monad over that record and
  a trace of the effects that leave the object (calls into the event
  adapter, the server, the thread, the client and the logger).  The
  collaborators that live outside the module are driven by an
  environment that decides, call by call, whether they return or raise. *)

From Stdlib Require Import ZArith List.
From stdpp Require Import base strings gmap list.

Local Open Scope Z_scope.
Local Open Scope string_scope.
Local Open Scope list_scope.

(** ** Values that cross the module boundary *)

(** [PlaybackStateType] of the client SDK. *)
Inductive PlaybackStateType := PLAYING | PAUSED | STOPPED.

(** [MediaCommand] members are declared in the client SDK; a member is
  identified here by its wire name. *)
Abbreviation MediaCommand := string (only parsing).

(** The SDK's [UndefinedField] sentinel next to a transmitted value: a field
  of an update is either left out or given, and a given field of type
  [T | None] may still be [None]. *)
Inductive Field (A : Type) : Type :=
| Undefined
| Given (v : A).
Arguments Undefined {A}.
Arguments Given {A} v.

Module Progress.
(** Python does not enforce the SDK's annotations on these two attributes
    and the handler itself tests the extracted progress against [None],
    so both are optional here. *)
Record t := mk {
  track_progress : option Z;
  track_duration : option Z
}.
End Progress.

Module Metadata.
Record t := mk {
  title : Field (option string);
  artist : Field (option string);
  album : Field (option string);
  progress : Field (option Progress.t)
}.
End Metadata.

Module ControllerPayload.
Record t := mk {
  supported_commands : list MediaCommand;
  volume : Z;
  muted : bool
}.
End ControllerPayload.

Module ServerStatePayload.
Record t := mk {
  metadata : option Metadata.t;
  controller : option ControllerPayload.t
}.
End ServerStatePayload.

Module GroupUpdateServerPayload.
Record t := mk {
  playback_state : option PlaybackStateType
}.
End GroupUpdateServerPayload.

(** ** The shared state record *)

Module MprisState.
(** Modelled from the spec: [MprisState] is declared in [adapter.py],
    which is not among the sources; the fields are those of section 3 of
    the specification. *)
Record t := mk {
  title : option string;
  artist : option string;
  album : option string;
  duration_ms : option Z;
  progress_ms : option Z;
  playback_state : option PlaybackStateType;
  volume : Z;
  muted : bool;
  supported_commands : gset MediaCommand
}.

(** Attribute assignment, one function per attribute. *)
Definition set_title (v : option string) (s : t) : t :=
  mk v (artist s) (album s) (duration_ms s) (progress_ms s)
     (playback_state s) (volume s) (muted s) (supported_commands s).
Definition set_artist (v : option string) (s : t) : t :=
  mk (title s) v (album s) (duration_ms s) (progress_ms s)
     (playback_state s) (volume s) (muted s) (supported_commands s).
Definition set_album (v : option string) (s : t) : t :=
  mk (title s) (artist s) v (duration_ms s) (progress_ms s)
     (playback_state s) (volume s) (muted s) (supported_commands s).
Definition set_duration_ms (v : option Z) (s : t) : t :=
  mk (title s) (artist s) (album s) v (progress_ms s)
     (playback_state s) (volume s) (muted s) (supported_commands s).
Definition set_progress_ms (v : option Z) (s : t) : t :=
  mk (title s) (artist s) (album s) (duration_ms s) v
     (playback_state s) (volume s) (muted s) (supported_commands s).
Definition set_playback_state (v : option PlaybackStateType) (s : t) : t :=
  mk (title s) (artist s) (album s) (duration_ms s) (progress_ms s)
     v (volume s) (muted s) (supported_commands s).
Definition set_volume (v : Z) (s : t) : t :=
  mk (title s) (artist s) (album s) (duration_ms s) (progress_ms s)
     (playback_state s) v (muted s) (supported_commands s).
Definition set_muted (v : bool) (s : t) : t :=
  mk (title s) (artist s) (album s) (duration_ms s) (progress_ms s)
     (playback_state s) (volume s) v (supported_commands s).
Definition set_supported_commands (v : gset MediaCommand) (s : t) : t :=
  mk (title s) (artist s) (album s) (duration_ms s) (progress_ms s)
     (playback_state s) (volume s) (muted s) v.
End MprisState.

(** ** Collaborators *)

(** Objects of other modules are handles that record what they were built
  from; what they do when called is decided by the environment. *)
Inductive Client := SendspinClient (id : nat).
Inductive Loop := EventLoop (id : nat).

Inductive Adapter :=
  SendspinMprisAdapter (client : Client) (loop : Loop)
                     (desktop_entry : option string).
Inductive Server := MprisServer (name : string) (adapter : Adapter).
(** Bound to the root, player, playlists and tracklist of one server. *)
Inductive EventAdapter := MprisEventAdapter (server : Server).
(** [threading.Thread(target=run_loop, daemon=True, name=...)], where
  [run_loop] runs [server.loop()] and logs whatever it raises. *)
Inductive Thread := DaemonThread (name : string) (target : Server).

Inductive ListenerKind :=
| metadata_listener
| group_update_listener
| controller_state_listener.

(** The remover callback that [client.add_<kind>_listener] hands back. *)
Inductive Remover := RemoverOf (kind : ListenerKind).

(** The change notifications of the event adapter. *)
Inductive Signal := on_title | on_playpause | on_volume | on_options.

(** Every call that leaves the module and may raise. *)
Inductive ExtCall :=
| New_SendspinMprisAdapter
| New_Server
| New_EventAdapter
| Thread_start
| Thread_join (timeout : Z)
| Server_quit
| Notify (s : Signal)
| Add_listener (k : ListenerKind)
| Call_remover (r : Remover).

(** ** Exceptions *)

Inductive PyExc :=
| RuntimeError (msg : string)
| OtherException (name : string)
  (* an instance of any other subclass of [Exception] *)
| NonException (name : string).
  (* [KeyboardInterrupt], [SystemExit] and the like: [BaseException]
     outside [Exception] *)

Definition isinstance_Exception (e : PyExc) : bool :=
  match e with NonException _ => false | _ => true end.

Definition isinstance_RuntimeError (e : PyExc) : bool :=
  match e with RuntimeError _ => true | _ => false end.

(** ** The object *)

Module SendspinMpris.
Record t := mk {
  _client : Client;
  _name : string;
  _desktop_entry : option string;
  _loop : option Loop;
  _state : MprisState.t;
  _adapter : option Adapter;
  _server : option Server;
  _event_adapter : option EventAdapter;
  _thread : option Thread;
  _running : bool;
  _listener_removers : list Remover
}.

Definition set_loop (v : option Loop) (o : t) : t :=
  mk (_client o) (_name o) (_desktop_entry o) v (_state o) (_adapter o)
     (_server o) (_event_adapter o) (_thread o) (_running o)
     (_listener_removers o).
Definition set_state (v : MprisState.t) (o : t) : t :=
  mk (_client o) (_name o) (_desktop_entry o) (_loop o) v (_adapter o)
     (_server o) (_event_adapter o) (_thread o) (_running o)
     (_listener_removers o).
Definition set_adapter (v : option Adapter) (o : t) : t :=
  mk (_client o) (_name o) (_desktop_entry o) (_loop o) (_state o) v
     (_server o) (_event_adapter o) (_thread o) (_running o)
     (_listener_removers o).
Definition set_server (v : option Server) (o : t) : t :=
  mk (_client o) (_name o) (_desktop_entry o) (_loop o) (_state o)
     (_adapter o) v (_event_adapter o) (_thread o) (_running o)
     (_listener_removers o).
Definition set_event_adapter (v : option EventAdapter) (o : t) : t :=
  mk (_client o) (_name o) (_desktop_entry o) (_loop o) (_state o)
     (_adapter o) (_server o) v (_thread o) (_running o)
     (_listener_removers o).
Definition set_thread (v : option Thread) (o : t) : t :=
  mk (_client o) (_name o) (_desktop_entry o) (_loop o) (_state o)
     (_adapter o) (_server o) (_event_adapter o) v (_running o)
     (_listener_removers o).
Definition set_running (v : bool) (o : t) : t :=
  mk (_client o) (_name o) (_desktop_entry o) (_loop o) (_state o)
     (_adapter o) (_server o) (_event_adapter o) (_thread o) v
     (_listener_removers o).
Definition set_listener_removers (v : list Remover) (o : t) : t :=
  mk (_client o) (_name o) (_desktop_entry o) (_loop o) (_state o)
     (_adapter o) (_server o) (_event_adapter o) (_thread o) (_running o)
     v.
End SendspinMpris.

(** ** Effects and the environment *)

Inductive Level := DEBUG | INFO | WARNING.

(** A call of one of the public setters, with its arguments.  Each setter
    records its own entry, so that a trace tells which setters a handler
    called and with what. *)
Inductive Invocation :=
| Set_metadata (title artist album : option string) (duration_ms : option Z)
| Set_progress (progress_ms : option Z)
| Set_playback_state (state : PlaybackStateType)
| Set_volume (volume : Z) (muted : bool)
| Set_supported_commands (commands : gset MediaCommand).

(** What an observer of the object sees, oldest first.  An external call is
    recorded with the shared state as it stands when the call is made: the
    adapter and the server read that same record. *)
Inductive Effect :=
| Enter (c : Invocation)
| Ext (c : ExtCall) (seen : MprisState.t)
| Logged (lvl : Level) (msg : string).

(** The world outside the module: the module constant [MPRIS_AVAILABLE],
    the event loop running in the caller's context, if any, and for every
    external call whether it raises, given what has happened so far. *)
Record Env := mkEnv {
  MPRIS_AVAILABLE : bool;
  running_loop : option Loop;
  ext_outcome : ExtCall -> list Effect -> option PyExc
}.

Record World := mkWorld {
  self : SendspinMpris.t;
  trace : list Effect
}.

Inductive Outcome (A : Type) : Type :=
| Returns (a : A)
| Raises (e : PyExc).
Arguments Returns {A} a.
Arguments Raises {A} e.

(** A method body: it reads the environment, mutates the object, extends
    the trace, and returns or raises.  Writes made before an exception
    stay: nothing is rolled back. *)
Definition M (A : Type) : Type := Env -> World -> Outcome A * World.

Definition ret {A : Type} (a : A) : M A := fun _ w => (Returns a, w).

Definition bind {A B : Type} (m : M A) (k : A -> M B) : M B :=
  fun env w =>
    match m env w with
    | (Returns a, w') => k a env w'
    | (Raises e, w') => (Raises e, w')
    end.

Definition raise {A : Type} (e : PyExc) : M A := fun _ w => (Raises e, w).

Declare Scope py_scope.
Delimit Scope py_scope with py.
Notation "x <- c1 ;; c2" := (bind c1 (fun x => c2))
  (at level 100, c1 at next level, right associativity) : py_scope.
Notation "c1 ;; c2" := (bind c1 (fun _ => c2))
  (at level 100, right associativity) : py_scope.
Local Open Scope py_scope.

(** [try: body / except Exception: handler]. *)
Definition try_except_Exception (body handler : M unit) : M unit :=
  fun env w =>
    match body env w with
    | (Raises e, w') =>
        if isinstance_Exception e then handler env w' else (Raises e, w')
    | r => r
    end.

(** [try: body / except RuntimeError as err: handler err]. *)
Definition try_except_RuntimeError {A : Type} (body : M A)
    (handler : PyExc -> M A) : M A :=
  fun env w =>
    match body env w with
    | (Raises e, w') =>
        if isinstance_RuntimeError e then handler e env w'
        else (Raises e, w')
    | r => r
    end.

(** [for x in xs: body x]. *)
Fixpoint for_each {A : Type} (xs : list A) (body : A -> M unit) : M unit :=
  match xs with
  | [] => ret tt
  | x :: rest => body x ;; for_each rest body
  end.

Definition read_self {A : Type} (f : SendspinMpris.t -> A) : M A :=
  fun _ w => (Returns (f (self w)), w).

Definition write_self (f : SendspinMpris.t -> SendspinMpris.t) : M unit :=
  fun _ w => (Returns tt, mkWorld (f (self w)) (trace w)).

(** [self._state.<attr> = v]. *)
Definition write_state (f : MprisState.t -> MprisState.t) : M unit :=
  write_self (fun o => SendspinMpris.set_state (f (SendspinMpris._state o)) o).

Definition emit (e : Effect) : M unit :=
  fun _ w => (Returns tt, mkWorld (self w) (trace w ++ [e])).

Definition _LOGGER (lvl : Level) (msg : string) : M unit :=
  emit (Logged lvl msg).

(** A call into a collaborator: it is recorded, then returns or raises as
    the environment says. *)
Definition call (c : ExtCall) : M unit :=
  fun env w =>
    let w' := mkWorld (self w)
                (trace w ++ [Ext c (SendspinMpris._state (self w))]) in
    match ext_outcome env c (trace w) with
    | None => (Returns tt, w')
    | Some e => (Raises e, w')
    end.

(** [asyncio.get_running_loop()]. *)
Definition get_running_loop : M Loop :=
  fun env w =>
    match running_loop env with
    | Some l => (Returns l, w)
    | None => (Raises (RuntimeError "no running event loop"), w)
    end.

Definition read_env {A : Type} (f : Env -> A) : M A :=
  fun env w => (Returns (f env), w).

Definition read_state {A : Type} (f : MprisState.t -> A) : M A :=
  read_self (fun o => f (SendspinMpris._state o)).

(** ** The methods of [SendspinMpris] *)

(** [__init__(self, client, name="Sendspin", desktop_entry=None)].  [fresh]
    is the value of [MprisState()], whose defaults are set in [adapter.py]. *)
Definition __init__ (fresh : MprisState.t) (client : Client) (name : string)
    (desktop_entry : option string) : SendspinMpris.t :=
  SendspinMpris.mk client name desktop_entry None fresh None None None None
    false [].

Definition set_metadata (title artist album : option string)
    (duration_ms : option Z) : M unit :=
  emit (Enter (Set_metadata title artist album duration_ms)) ;;
  write_state (MprisState.set_title title) ;;
  write_state (MprisState.set_artist artist) ;;
  write_state (MprisState.set_album album) ;;
  write_state (MprisState.set_duration_ms duration_ms) ;;
  event_adapter <- read_self SendspinMpris._event_adapter ;;
  match event_adapter with
  | None =>
      _LOGGER WARNING
        "MPRIS event adapter not initialized; cannot emit metadata change"
  | Some _ =>
      try_except_Exception
        (call (Notify on_title))
        (_LOGGER DEBUG "Failed to emit MPRIS metadata change")
  end.

Definition set_progress (progress_ms : option Z) : M unit :=
  emit (Enter (Set_progress progress_ms)) ;;
  write_state (MprisState.set_progress_ms progress_ms).

Definition set_playback_state (state : PlaybackStateType) : M unit :=
  emit (Enter (Set_playback_state state)) ;;
  write_state (MprisState.set_playback_state (Some state)) ;;
  event_adapter <- read_self SendspinMpris._event_adapter ;;
  match event_adapter with
  | None =>
      _LOGGER WARNING
        "MPRIS event adapter not initialized; cannot emit playback state change"
  | Some _ =>
      try_except_Exception
        (call (Notify on_playpause))
        (_LOGGER DEBUG "Failed to emit MPRIS playback state change")
  end.

Definition set_volume (volume : Z) (muted : bool) : M unit :=
  emit (Enter (Set_volume volume muted)) ;;
  write_state (MprisState.set_volume volume) ;;
  write_state (MprisState.set_muted muted) ;;
  event_adapter <- read_self SendspinMpris._event_adapter ;;
  match event_adapter with
  | None =>
      _LOGGER WARNING
        "MPRIS event adapter not initialized; cannot emit volume change"
  | Some _ =>
      try_except_Exception
        (call (Notify on_volume))
        (_LOGGER DEBUG "Failed to emit MPRIS volume change")
  end.

Definition set_supported_commands (commands : gset MediaCommand) : M unit :=
  emit (Enter (Set_supported_commands commands)) ;;
  write_state (MprisState.set_supported_commands commands) ;;
  event_adapter <- read_self SendspinMpris._event_adapter ;;
  match event_adapter with
  | None =>
      _LOGGER WARNING
        "MPRIS event adapter not initialized; cannot emit options change"
  | Some _ =>
      try_except_Exception
        (call (Notify on_options))
        (_LOGGER DEBUG "Failed to emit MPRIS options change")
  end.

(** A call site of [set_metadata]: each keyword argument is passed or left
    out, and a parameter left out takes the default of the signature,
    [None] for all four. *)
Record set_metadata_kwargs := mk_kwargs {
  kw_title : option (option string);
  kw_artist : option (option string);
  kw_album : option (option string);
  kw_duration_ms : option (option Z)
}.

Definition or_default {A : Type} (dflt : A) (arg : option A) : A :=
  match arg with Some v => v | None => dflt end.

Definition call_set_metadata (kw : set_metadata_kwargs) : M unit :=
  set_metadata (or_default None (kw_title kw)) (or_default None (kw_artist kw))
    (or_default None (kw_album kw)) (or_default None (kw_duration_ms kw)).

(** [x if not isinstance(x, UndefinedField) else previous]. *)
Definition unless_undefined {A : Type} (x : Field A) (previous : M A) : M A :=
  match x with
  | Given v => ret v
  | Undefined => previous
  end.

Definition _on_metadata_update (payload : ServerStatePayload.t) : M unit :=
  match ServerStatePayload.metadata payload with
  | None => ret tt
  | Some metadata =>
      title <- unless_undefined (Metadata.title metadata)
                 (read_state MprisState.title) ;;
      artist <- unless_undefined (Metadata.artist metadata)
                  (read_state MprisState.artist) ;;
      album <- unless_undefined (Metadata.album metadata)
                 (read_state MprisState.album) ;;
      duration_ms0 <- read_state MprisState.duration_ms ;;
      progress_ms0 <- read_state MprisState.progress_ms ;;
      let '(duration_ms, progress_ms) :=
        match Metadata.progress metadata with
        | Given (Some progress) =>
            (Progress.track_duration progress,
             Progress.track_progress progress)
        | Given None | Undefined => (duration_ms0, progress_ms0)
        end in
      set_metadata title artist album duration_ms ;;
      match progress_ms with
      | Some _ => set_progress progress_ms
      | None => ret tt
      end
  end.

Definition _on_group_update (payload : GroupUpdateServerPayload.t) : M unit :=
  match GroupUpdateServerPayload.playback_state payload with
  | Some state => set_playback_state state
  | None => ret tt
  end.

Definition _on_controller_state (payload : ServerStatePayload.t) : M unit :=
  match ServerStatePayload.controller payload with
  | None => ret tt
  | Some controller =>
      set_supported_commands
        (list_to_set (ControllerPayload.supported_commands controller)) ;;
      set_volume (ControllerPayload.volume controller)
        (ControllerPayload.muted controller)
  end.

Definition _attach_client_listeners : M unit :=
  call (Add_listener metadata_listener) ;;
  write_self (fun o => SendspinMpris.set_listener_removers
    (SendspinMpris._listener_removers o ++ [RemoverOf metadata_listener]) o) ;;
  call (Add_listener group_update_listener) ;;
  write_self (fun o => SendspinMpris.set_listener_removers
    (SendspinMpris._listener_removers o ++ [RemoverOf group_update_listener])
    o) ;;
  call (Add_listener controller_state_listener) ;;
  write_self (fun o => SendspinMpris.set_listener_removers
    (SendspinMpris._listener_removers o
       ++ [RemoverOf controller_state_listener]) o) ;;
  _LOGGER DEBUG "Attached MPRIS listeners to SendspinClient".

Definition start : M unit :=
  available <- read_env MPRIS_AVAILABLE ;;
  if negb available then
    _LOGGER DEBUG
      "MPRIS not available: mpris_server package not installed or not on Linux"
  else
   running <- read_self SendspinMpris._running ;;
   if (running : bool) then _LOGGER DEBUG "MPRIS interface already running"
   else
   loop <- try_except_RuntimeError get_running_loop
             (fun err => raise (RuntimeError
                "MPRIS must be started from within a running event loop")) ;;
   write_self (SendspinMpris.set_loop (Some loop)) ;;
   client <- read_self SendspinMpris._client ;;
   desktop_entry <- read_self SendspinMpris._desktop_entry ;;
   call New_SendspinMprisAdapter ;;
   let adapter := SendspinMprisAdapter client loop desktop_entry in
   write_self (SendspinMpris.set_adapter (Some adapter)) ;;
   name <- read_self SendspinMpris._name ;;
   call New_Server ;;
   let server := MprisServer name adapter in
   write_self (SendspinMpris.set_server (Some server)) ;;
   call New_EventAdapter ;;
   write_self (SendspinMpris.set_event_adapter
                 (Some (MprisEventAdapter server))) ;;
   write_self (SendspinMpris.set_thread
                 (Some (DaemonThread "mpris-server" server))) ;;
   call Thread_start ;;
   write_self (SendspinMpris.set_running true) ;;
   _attach_client_listeners ;;
   _LOGGER INFO "MPRIS interface started".

Definition stop : M unit :=
  running <- read_self SendspinMpris._running ;;
  if negb running then ret tt
  else
  write_self (SendspinMpris.set_running false) ;;
  write_self (SendspinMpris.set_event_adapter None) ;;
  removers <- read_self SendspinMpris._listener_removers ;;
  for_each removers (fun remover =>
    try_except_Exception
      (call (Call_remover remover))
      (_LOGGER DEBUG "Error removing listener")) ;;
  write_self (SendspinMpris.set_listener_removers []) ;;
  server <- read_self SendspinMpris._server ;;
  match server with
  | Some _ =>
      try_except_Exception
        (call Server_quit)
        (_LOGGER DEBUG "Error stopping MPRIS server") ;;
      write_self (SendspinMpris.set_server None)
  | None => ret tt
  end ;;
  thread <- read_self SendspinMpris._thread ;;
  match thread with
  | Some _ =>
      _LOGGER DEBUG "Waiting for MPRIS server thread to exit" ;;
      call (Thread_join 1) ;;
      write_self (SendspinMpris.set_thread None)
  | None => ret tt
  end ;;
  _LOGGER INFO "MPRIS interface stopped".

(** ** Observations on a world *)

Definition state_of (w : World) : MprisState.t := SendspinMpris._state (self w).

(** The world a computation leaves behind, whether it returned or raised. *)
Definition after_ {A : Type} (r : Outcome A * World) : World := snd r.

(** The change notifications of a trace, each with the state it saw. *)
Fixpoint notifications (tr : list Effect) : list (Signal * MprisState.t) :=
  match tr with
  | [] => []
  | Ext (Notify s) seen :: rest => (s, seen) :: notifications rest
  | _ :: rest => notifications rest
  end.

(** The setter calls of a trace. *)
Fixpoint invocations (tr : list Effect) : list Invocation :=
  match tr with
  | [] => []
  | Enter c :: rest => c :: invocations rest
  | _ :: rest => invocations rest
  end.

(** The external calls of a trace. *)
Fixpoint ext_calls (tr : list Effect) : list ExtCall :=
  match tr with
  | [] => []
  | Ext c _ :: rest => c :: ext_calls rest
  | _ :: rest => ext_calls rest
  end.

(** The removers called in a trace. *)
Fixpoint removals (tr : list Effect) : list Remover :=
  match tr with
  | [] => []
  | Ext (Call_remover r) _ :: rest => r :: removals rest
  | _ :: rest => removals rest
  end.

(** An environment in which call [c], whenever it fails, fails with an
    instance of [Exception]. *)
Definition raises_only_Exception (env : Env) (c : ExtCall) : Prop :=
  forall tr,
    match ext_outcome env c tr with
    | Some e => isinstance_Exception e = true
    | None => True
    end.

(** An environment in which call [c] always returns. *)
Definition always_returns (env : Env) (c : ExtCall) : Prop :=
  forall tr, ext_outcome env c tr = None.

(** The state after [set_metadata], [set_volume] and the other setters wrote
    their arguments. *)
Definition with_metadata (title artist album : option string)
    (duration_ms : option Z) (s : MprisState.t) : MprisState.t :=
  MprisState.set_duration_ms duration_ms
    (MprisState.set_album album
       (MprisState.set_artist artist (MprisState.set_title title s))).

Definition with_volume (volume : Z) (muted : bool) (s : MprisState.t)
    : MprisState.t :=
  MprisState.set_muted muted (MprisState.set_volume volume s).

(** The part every notifying setter ends with: warn when there is no event
    adapter, else make the one notification call and log its failure. *)
Definition emit_change (s : Signal) (warning failure : string) : M unit :=
  event_adapter <- read_self SendspinMpris._event_adapter ;;
  match event_adapter with
  | None => _LOGGER WARNING warning
  | Some _ => try_except_Exception (call (Notify s)) (_LOGGER DEBUG failure)
  end.

(** The result of [emit_change], case by case. *)
Definition emit_change_result (s : Signal) (warning failure : string)
    (env : Env) (w : World) : Outcome unit * World :=
  match SendspinMpris._event_adapter (self w) with
  | None => (Returns tt, mkWorld (self w) (trace w ++ [Logged WARNING warning]))
  | Some _ =>
      let called := trace w ++ [Ext (Notify s) (state_of w)] in
      match ext_outcome env (Notify s) (trace w) with
      | None => (Returns tt, mkWorld (self w) called)
      | Some e =>
          if isinstance_Exception e
          then (Returns tt,
                mkWorld (self w) (called ++ [Logged DEBUG failure]))
          else (Raises e, mkWorld (self w) called)
      end
  end.

(** What the environment answers to the notification that setter call [c],
    made in world [w], sends: the call is made once the setter has been
    entered. *)
Definition notification_outcome (env : Env) (w : World) (c : Invocation)
    (s : Signal) : option PyExc :=
  ext_outcome env (Notify s) (trace w ++ [Enter c]).

(** What [stop] does once its loop over the removers is over. *)
Definition stop_after_removals : M unit :=
  write_self (SendspinMpris.set_listener_removers []) ;;
  server <- read_self SendspinMpris._server ;;
  match server with
  | Some _ =>
      try_except_Exception
        (call Server_quit)
        (_LOGGER DEBUG "Error stopping MPRIS server") ;;
      write_self (SendspinMpris.set_server None)
  | None => ret tt
  end ;;
  thread <- read_self SendspinMpris._thread ;;
  match thread with
  | Some _ =>
      _LOGGER DEBUG "Waiting for MPRIS server thread to exit" ;;
      call (Thread_join 1) ;;
      write_self (SendspinMpris.set_thread None)
  | None => ret tt
  end ;;
  _LOGGER INFO "MPRIS interface stopped".

(** ** The values the metadata handler computes *)

(** [x if not isinstance(x, UndefinedField) else previous], as a value. *)
Definition keep_or_adopt {A : Type} (incoming : Field A) (previous : A) : A :=
  match incoming with
  | Given v => v
  | Undefined => previous
  end.

(** The duration and the progress the handler holds after its [if]. *)
Definition computed_duration (metadata : Metadata.t) (s : MprisState.t)
    : option Z :=
  match Metadata.progress metadata with
  | Given (Some progress) => Progress.track_duration progress
  | Given None | Undefined => MprisState.duration_ms s
  end.

Definition computed_progress (metadata : Metadata.t) (s : MprisState.t)
    : option Z :=
  match Metadata.progress metadata with
  | Given (Some progress) => Progress.track_progress progress
  | Given None | Undefined => MprisState.progress_ms s
  end.

(** ** The metadata handler as the specification words it *)

(** "Progress was updated by this event": the event carries a progress
    sub-field that is neither the sentinel nor null. *)
Definition progress_updated (metadata : Metadata.t) : bool :=
  match Metadata.progress metadata with
  | Given (Some _) => true
  | Given None | Undefined => false
  end.

Definition is_Set_progress (c : Invocation) : bool :=
  match c with Set_progress _ => true | _ => false end.

(** The effects a computation added to the trace of [w]. *)
Definition added (w w' : World) : list Effect :=
  drop (length (trace w)) (trace w').

(** The duration and progress rule for one event, read literally: both are
    taken from the progress sub-field when it is present and not null and
    both keep their value otherwise, and the progress setter is called
    exactly when the event updated the progress. *)
Definition progress_rule_as_stated (env : Env) (w : World)
    (metadata : Metadata.t) : Prop :=
  let w' := after_ (_on_metadata_update
                      (ServerStatePayload.mk (Some metadata) None) env w) in
  match Metadata.progress metadata with
  | Given (Some progress) =>
      MprisState.duration_ms (state_of w') = Progress.track_duration progress
      /\ MprisState.progress_ms (state_of w')
         = Progress.track_progress progress
  | Given None | Undefined =>
      MprisState.duration_ms (state_of w') = MprisState.duration_ms (state_of w)
      /\ MprisState.progress_ms (state_of w')
         = MprisState.progress_ms (state_of w)
  end
  /\ existsb is_Set_progress (invocations (added w w'))
     = progress_updated metadata.

(** ** Concrete objects and environments *)

Definition empty_state : MprisState.t :=
  MprisState.mk None None None None None None 100 false ∅.

Definition fresh_object : SendspinMpris.t :=
  __init__ empty_state (SendspinClient 0) "Sendspin" None.

(** Every collaborator works; the caller runs inside an event loop. *)
Definition quiet_env : Env :=
  mkEnv true (Some (EventLoop 0)) (fun _ _ => None).

(** Every change notification fails. *)
Definition failing_notifier_env : Env :=
  mkEnv true (Some (EventLoop 0))
    (fun c _ =>
       match c with
       | Notify _ => Some (OtherException "DBusError")
       | _ => None
       end).

(** The second remover and the server shutdown fail. *)
Definition failing_teardown_env : Env :=
  mkEnv true (Some (EventLoop 0))
    (fun c _ =>
       match c with
       | Call_remover (RemoverOf group_update_listener) =>
           Some (OtherException "ValueError")
       | Server_quit => Some (RuntimeError "loop is not running")
       | _ => None
       end).

(** The protocol library is installed, no event loop is running. *)
Definition no_loop_env : Env := mkEnv true None (fun _ _ => None).

(** The protocol library is missing. *)
Definition unavailable_env : Env :=
  mkEnv false (Some (EventLoop 0)) (fun _ _ => None).

(** The object after a successful [start()]. *)
Definition started_world : World :=
  after_ (start quiet_env (mkWorld fresh_object [])).

(** An object that knows a progress of five seconds. *)
Definition playing_world : World :=
  mkWorld
    (SendspinMpris.set_state
       (MprisState.set_progress_ms (Some 5000) empty_state) fresh_object)
    [].

(** An update that carries no field at all. *)
Definition empty_update : Metadata.t :=
  Metadata.mk Undefined Undefined Undefined Undefined.

(** ** Driving the object *)

(** The three removers [_attach_client_listeners] appends, in its order. *)
Definition attached_removers : list Remover :=
  [RemoverOf metadata_listener; RemoverOf group_update_listener;
   RemoverOf controller_state_listener].

(** The external calls of a [start()] that goes through, in order. *)
Definition start_calls : list ExtCall :=
  [New_SendspinMprisAdapter; New_Server; New_EventAdapter; Thread_start;
   Add_listener metadata_listener; Add_listener group_update_listener;
   Add_listener controller_state_listener].

(** What application code and the client do with the object: the public
    methods and the three listener callbacks. *)
Inductive Request :=
| Do_start
| Do_stop
| Do_set_metadata (kw : set_metadata_kwargs)
| Do_set_progress (progress_ms : option Z)
| Do_set_playback_state (state : PlaybackStateType)
| Do_set_volume (volume : Z) (muted : bool)
| Do_set_supported_commands (commands : gset MediaCommand)
| On_metadata (payload : ServerStatePayload.t)
| On_group_update (payload : GroupUpdateServerPayload.t)
| On_controller_state (payload : ServerStatePayload.t).

Definition perform (r : Request) : M unit :=
  match r with
  | Do_start => start
  | Do_stop => stop
  | Do_set_metadata kw => call_set_metadata kw
  | Do_set_progress progress_ms => set_progress progress_ms
  | Do_set_playback_state state => set_playback_state state
  | Do_set_volume volume muted => set_volume volume muted
  | Do_set_supported_commands commands => set_supported_commands commands
  | On_metadata payload => _on_metadata_update payload
  | On_group_update payload => _on_group_update payload
  | On_controller_state payload => _on_controller_state payload
  end.

(** A history of requests, each with the environment it meets.  A request
    that raises leaves its writes behind and the next one goes on from
    there. *)
Fixpoint replay (history : list (Env * Request)) (w : World) : World :=
  match history with
  | [] => w
  | (env, r) :: rest => replay rest (after_ (perform r env w))
  end.

(** A computation that, whichever way it ends, leaves every attribute of
    the object but [_state] as it found it. *)
Definition only_writes_state {A : Type} (m : M A) : Prop :=
  forall env w,
    self (after_ (m env w))
    = SendspinMpris.set_state (state_of (after_ (m env w))) (self w).

(** A computation that, started without an event adapter, ends without one
    and makes no external call. *)
Definition calls_nobody_unnotified {A : Type} (m : M A) : Prop :=
  forall env w,
    SendspinMpris._event_adapter (self w) = None ->
    SendspinMpris._event_adapter (self (after_ (m env w))) = None
    /\ exists new,
         trace (after_ (m env w)) = trace w ++ new /\ ext_calls new = [].

(** The requests other than [start()] and [stop()]. *)
Definition is_lifecycle (r : Request) : bool :=
  match r with
  | Do_start | Do_stop => true
  | _ => false
  end.

(** While the flag is up, everything [start()] builds is in place. *)
Definition wired_while_running (o : SendspinMpris.t) : Prop :=
  SendspinMpris._running o = true ->
  is_Some (SendspinMpris._loop o)
  /\ is_Some (SendspinMpris._adapter o)
  /\ is_Some (SendspinMpris._server o)
  /\ is_Some (SendspinMpris._event_adapter o)
  /\ is_Some (SendspinMpris._thread o).

(** The remover list holds the removers of the registrations made since
    the last [start()], and nothing while the flag is down. *)
Definition removers_in_step (o : SendspinMpris.t) : Prop :=
  SendspinMpris._listener_removers o `prefix_of` attached_removers
  /\ (SendspinMpris._running o = false ->
      SendspinMpris._listener_removers o = []).

(** A history in which every remover, when called, raises nothing but
    instances of [Exception]. *)
Definition removers_raise_only_Exception (history : list (Env * Request))
    : Prop :=
  Forall (fun step => forall r,
            raises_only_Exception (fst step) (Call_remover r)) history.

(** A history on a platform without the protocol library. *)
Definition library_unavailable (history : list (Env * Request)) : Prop :=
  Forall (fun step => MPRIS_AVAILABLE (fst step) = false) history.

(** The thread cannot be started. *)
Definition thread_failure_env : Env :=
  mkEnv true (Some (EventLoop 0))
    (fun c _ =>
       match c with
       | Thread_start => Some (RuntimeError "can't start new thread")
       | _ => None
       end).

(** The client refuses the second listener. *)
Definition listener_failure_env : Env :=
  mkEnv true (Some (EventLoop 0))
    (fun c _ =>
       match c with
       | Add_listener group_update_listener =>
           Some (OtherException "ValueError")
       | _ => None
       end).

(** The user interrupts the process during a change notification. *)
Definition interrupted_env : Env :=
  mkEnv true (Some (EventLoop 0))
    (fun c _ =>
       match c with
       | Notify _ => Some (NonException "KeyboardInterrupt")
       | _ => None
       end).


(** ** Lemmas on traces and on the monad *)

Section Traces.

Lemma notifications_app (a b : list Effect) :
  notifications (a ++ b) = notifications a ++ notifications b.
Proof.
  induction a as [|[c|[]|] a IH]; simpl; rewrite ?IH; reflexivity.
Qed.

Lemma invocations_app (a b : list Effect) :
  invocations (a ++ b) = invocations a ++ invocations b.
Proof.
  induction a as [|[c|c st|] a IH]; simpl; rewrite ?IH; reflexivity.
Qed.

Lemma ext_calls_app (a b : list Effect) :
  ext_calls (a ++ b) = ext_calls a ++ ext_calls b.
Proof.
  induction a as [|[c|c st|] a IH]; simpl; rewrite ?IH; reflexivity.
Qed.

Lemma removals_app (a b : list Effect) :
  removals (a ++ b) = removals a ++ removals b.
Proof.
  induction a as [|[c|[]|] a IH]; simpl; rewrite ?IH; reflexivity.
Qed.

End Traces.

(** Pushes the trace observations through appended traces. *)
Ltac split_trace :=
  rewrite ?notifications_app, ?invocations_app, ?ext_calls_app,
    ?removals_app; simpl.

(** Unfolds the monad down to pairs of an outcome and a world. *)
Ltac run_py :=
  unfold emit_change, _LOGGER, emit, call, read_state, read_self, read_env,
    write_state, write_self, try_except_Exception, try_except_RuntimeError,
    get_running_loop, raise, bind, ret, state_of, after_ in *;
  simpl in *.

Lemma emit_change_eq (s : Signal) (warning failure : string) (env : Env)
    (w : World) :
  emit_change s warning failure env w
  = emit_change_result s warning failure env w.
Proof.
  unfold emit_change_result; run_py.
  destruct (SendspinMpris._event_adapter (self w)) as [ea|]; [|reflexivity].
  destruct (ext_outcome env (Notify s) (trace w)) as [e|]; [|reflexivity].
  destruct (isinstance_Exception e); reflexivity.
Qed.

(** ** The setters, as one write followed by one notification attempt *)

Section Setters.

Variables (env : Env) (w : World).

Lemma set_metadata_eq (title artist album : option string)
    (duration_ms : option Z) :
  set_metadata title artist album duration_ms env w
  = emit_change on_title
      "MPRIS event adapter not initialized; cannot emit metadata change"
      "Failed to emit MPRIS metadata change" env
      (mkWorld
         (SendspinMpris.set_state
            (with_metadata title artist album duration_ms (state_of w))
            (self w))
         (trace w ++ [Enter (Set_metadata title artist album duration_ms)])).
Proof. reflexivity. Qed.

Lemma set_playback_state_eq (state : PlaybackStateType) :
  set_playback_state state env w
  = emit_change on_playpause
      "MPRIS event adapter not initialized; cannot emit playback state change"
      "Failed to emit MPRIS playback state change" env
      (mkWorld
         (SendspinMpris.set_state
            (MprisState.set_playback_state (Some state) (state_of w))
            (self w))
         (trace w ++ [Enter (Set_playback_state state)])).
Proof. reflexivity. Qed.

Lemma set_volume_eq (volume : Z) (muted : bool) :
  set_volume volume muted env w
  = emit_change on_volume
      "MPRIS event adapter not initialized; cannot emit volume change"
      "Failed to emit MPRIS volume change" env
      (mkWorld
         (SendspinMpris.set_state (with_volume volume muted (state_of w))
            (self w))
         (trace w ++ [Enter (Set_volume volume muted)])).
Proof. reflexivity. Qed.

Lemma set_supported_commands_eq (commands : gset string) :
  set_supported_commands commands env w
  = emit_change on_options
      "MPRIS event adapter not initialized; cannot emit options change"
      "Failed to emit MPRIS options change" env
      (mkWorld
         (SendspinMpris.set_state
            (MprisState.set_supported_commands commands (state_of w))
            (self w))
         (trace w ++ [Enter (Set_supported_commands commands)])).
Proof. reflexivity. Qed.

Lemma set_progress_eq (progress_ms : option Z) :
  set_progress progress_ms env w
  = (Returns tt,
     mkWorld
       (SendspinMpris.set_state
          (MprisState.set_progress_ms progress_ms (state_of w)) (self w))
       (trace w ++ [Enter (Set_progress progress_ms)])).
Proof. reflexivity. Qed.

End Setters.

(** ** What a notification attempt leaves behind *)

Section EmitChange.

Variables (s : Signal) (warning failure : string) (env : Env) (w : World).

Let r := emit_change s warning failure env w.

Lemma emit_change_self : self (after_ r) = self w.
Proof.
  subst r; rewrite emit_change_eq; unfold emit_change_result, after_.
  destruct (SendspinMpris._event_adapter (self w)) as [ea|]; [|reflexivity].
  destruct (ext_outcome env (Notify s) (trace w)) as [e|]; [|reflexivity].
  destruct (isinstance_Exception e); reflexivity.
Qed.

Lemma emit_change_grows :
  exists new,
    trace (after_ r) = trace w ++ new
    /\ invocations new = []
    /\ notifications new
       = match SendspinMpris._event_adapter (self w) with
         | Some _ => [(s, state_of w)]
         | None => []
         end
    /\ ext_calls new
       = match SendspinMpris._event_adapter (self w) with
         | Some _ => [Notify s]
         | None => []
         end.
Proof.
  subst r; rewrite emit_change_eq; unfold emit_change_result, after_.
  destruct (SendspinMpris._event_adapter (self w)) as [ea|];
    [|eexists; repeat split; reflexivity].
  destruct (ext_outcome env (Notify s) (trace w)) as [e|];
    [|eexists; repeat split; reflexivity].
  destruct (isinstance_Exception e); simpl;
    rewrite <- ?app_assoc; eexists; repeat split; reflexivity.
Qed.

Lemma emit_change_returns :
  raises_only_Exception env (Notify s) -> fst r = Returns tt.
Proof.
  intros Hexc; subst r; rewrite emit_change_eq; unfold emit_change_result.
  destruct (SendspinMpris._event_adapter (self w)) as [ea|]; [|reflexivity].
  specialize (Hexc (trace w)).
  destruct (ext_outcome env (Notify s) (trace w)) as [e|]; [|reflexivity].
  rewrite Hexc; reflexivity.
Qed.

Lemma emit_change_swallows (ea : EventAdapter) (e : PyExc) :
  SendspinMpris._event_adapter (self w) = Some ea ->
  ext_outcome env (Notify s) (trace w) = Some e ->
  isinstance_Exception e = true ->
  r = (Returns tt,
       mkWorld (self w)
         (trace w ++ [Ext (Notify s) (state_of w); Logged DEBUG failure])).
Proof.
  intros Hea Hout Hexc; subst r; rewrite emit_change_eq.
  unfold emit_change_result; rewrite Hea, Hout, Hexc, <- app_assoc.
  reflexivity.
Qed.

End EmitChange.

(** ** The metadata handler *)

Lemma _on_metadata_update_eq (env : Env) (w : World) (metadata : Metadata.t)
    (controller : option ControllerPayload.t) :
  _on_metadata_update (ServerStatePayload.mk (Some metadata) controller) env w
  = (set_metadata
       (keep_or_adopt (Metadata.title metadata) (MprisState.title (state_of w)))
       (keep_or_adopt (Metadata.artist metadata)
          (MprisState.artist (state_of w)))
       (keep_or_adopt (Metadata.album metadata) (MprisState.album (state_of w)))
       (computed_duration metadata (state_of w)) ;;
     match computed_progress metadata (state_of w) with
     | Some _ => set_progress (computed_progress metadata (state_of w))
     | None => ret tt
     end) env w.
Proof.
  destruct metadata as [[|t] [|a] [|al] [|[[p d]|]]]; reflexivity.
Qed.

(** The handler, step by step: the world [w1] in which [set_metadata] has
    written, the notification attempt made there, then the progress. *)
Lemma _on_metadata_update_steps (env : Env) (w : World)
    (metadata : Metadata.t) (controller : option ControllerPayload.t) :
  let title :=
    keep_or_adopt (Metadata.title metadata) (MprisState.title (state_of w)) in
  let artist :=
    keep_or_adopt (Metadata.artist metadata) (MprisState.artist (state_of w)) in
  let album :=
    keep_or_adopt (Metadata.album metadata) (MprisState.album (state_of w)) in
  let duration_ms := computed_duration metadata (state_of w) in
  let progress_ms := computed_progress metadata (state_of w) in
  let written := with_metadata title artist album duration_ms (state_of w) in
  exists (r1 : Outcome unit) (w2 : World) (new : list Effect),
    self w2 = SendspinMpris.set_state written (self w)
    /\ trace w2 = trace w ++ new
    /\ invocations new = [Set_metadata title artist album duration_ms]
    /\ (raises_only_Exception env (Notify on_title) -> r1 = Returns tt)
    /\ _on_metadata_update (ServerStatePayload.mk (Some metadata) controller)
         env w
       = match r1, progress_ms with
         | Returns _, Some p =>
             (Returns tt,
              mkWorld
                (SendspinMpris.set_state
                   (MprisState.set_progress_ms (Some p) written) (self w))
                (trace w2 ++ [Enter (Set_progress (Some p))]))
         | Returns _, None => (Returns tt, w2)
         | Raises e, _ => (Raises e, w2)
         end.
Proof.
  intros title artist album duration_ms progress_ms written.
  rewrite _on_metadata_update_eq.
  fold title artist album duration_ms progress_ms.
  unfold bind at 1; rewrite set_metadata_eq; fold written.
  match goal with |- context [emit_change ?s ?a ?b ?e ?w1] =>
    pose proof (emit_change_self s a b e w1) as Hself;
    destruct (emit_change_grows s a b e w1) as (new & Hnew & Hinv & _ & _);
    pose proof (emit_change_returns s a b e w1) as Hret;
    destruct (emit_change s a b e w1) as [r1 w2]
  end.
  unfold after_ in *; simpl in *.
  exists r1, w2, (Enter (Set_metadata title artist album duration_ms) :: new).
  split; [exact Hself|].
  split; [rewrite Hnew, <- app_assoc; reflexivity|].
  split; [simpl; rewrite Hinv; reflexivity|].
  split; [exact Hret|].
  destruct r1 as [[]|e]; [|reflexivity].
  destruct progress_ms as [p|]; [|reflexivity].
  rewrite set_progress_eq; unfold state_of; rewrite Hself; reflexivity.
Qed.

(** Splits a goal on the handler along [_on_metadata_update_steps]. *)
Ltac handler_steps env w metadata controller :=
  let r1 := fresh "r1" in
  let w2 := fresh "w2" in
  let new := fresh "new" in
  let Hself := fresh "Hself" in
  let Hnew := fresh "Hnew" in
  let Hinv := fresh "Hinv" in
  let Hret := fresh "Hret" in
  let Hrun := fresh "Hrun" in
  destruct (_on_metadata_update_steps env w metadata controller)
    as (r1 & w2 & new & Hself & Hnew & Hinv & Hret & Hrun);
  rewrite Hrun.

Section SetterStates.

Variables (env : Env) (w : World).

Lemma set_metadata_state (title artist album : option string)
    (duration_ms : option Z) :
  state_of (after_ (set_metadata title artist album duration_ms env w))
  = with_metadata title artist album duration_ms (state_of w).
Proof.
  rewrite set_metadata_eq; unfold state_of at 1.
  rewrite emit_change_self; reflexivity.
Qed.

End SetterStates.

(** ** Helper lemmas for the claims *)

Lemma added_app (w w' : World) (new : list Effect) :
  trace w' = trace w ++ new -> added w w' = new.
Proof.
  intros H; unfold added; rewrite H; apply drop_app_length.
Qed.

(** ** The setters *)

(** What a setter that writes [written] and then attempts notification [s]
    leaves behind, whatever the notifier does. *)
Lemma notifying_setter_effects (s : Signal) (warning failure : string)
    (env : Env) (w : World) (c : Invocation) (written : MprisState.t) :
  let w' := after_ (emit_change s warning failure env
                      (mkWorld (SendspinMpris.set_state written (self w))
                         (trace w ++ [Enter c]))) in
  state_of w' = written
  /\ invocations (added w w') = [c]
  /\ notifications (added w w')
     = match SendspinMpris._event_adapter (self w) with
       | Some _ => [(s, written)]
       | None => []
       end
  /\ ext_calls (added w w')
     = match SendspinMpris._event_adapter (self w) with
       | Some _ => [Notify s]
       | None => []
       end.
Proof.
  intros w'; subst w'.
  match goal with |- context [emit_change ?s ?a ?b ?e ?w1] =>
    pose proof (emit_change_self s a b e w1) as Hself;
    destruct (emit_change_grows s a b e w1)
      as (new & Hnew & Hinv & Hnot & Hext)
  end.
  simpl in *.
  split; [unfold state_of; rewrite Hself; reflexivity|].
  erewrite added_app by (rewrite Hnew, <- app_assoc; reflexivity).
  simpl; rewrite Hinv, Hnot, Hext; repeat split; reflexivity.
Qed.

(** The same setter when its notification raises an [Exception]. *)
Lemma notifying_setter_swallows (s : Signal) (warning failure : string)
    (env : Env) (w : World) (c : Invocation) (written : MprisState.t)
    (ea : EventAdapter) (e : PyExc) :
  SendspinMpris._event_adapter (self w) = Some ea ->
  notification_outcome env w c s = Some e ->
  isinstance_Exception e = true ->
  emit_change s warning failure env
    (mkWorld (SendspinMpris.set_state written (self w))
       (trace w ++ [Enter c]))
  = (Returns tt,
     mkWorld (SendspinMpris.set_state written (self w))
       (trace w
        ++ [Enter c; Ext (Notify s) written; Logged DEBUG failure])).
Proof.
  intros Hea Hout Hexc.
  erewrite emit_change_swallows by eassumption.
  simpl; rewrite <- app_assoc; reflexivity.
Qed.

(** ** Start and stop *)

Lemma start_unavailable (env : Env) (w : World) :
  MPRIS_AVAILABLE env = false ->
  start env w
  = (Returns tt,
     mkWorld (self w)
       (trace w
        ++ [Logged DEBUG
              "MPRIS not available: mpris_server package not installed or not on Linux"])).
Proof.
  intros Hoff; unfold start; run_py; rewrite Hoff; reflexivity.
Qed.


(** One pass of the loop of [stop]: the remover is called and what it
    raises is logged. *)
Lemma remove_listener_run (env : Env) (r : Remover) (w : World) :
  raises_only_Exception env (Call_remover r) ->
  exists new,
    try_except_Exception (call (Call_remover r))
      (_LOGGER DEBUG "Error removing listener") env w
    = (Returns tt, mkWorld (self w) (trace w ++ new))
    /\ removals new = [r]
    /\ ext_calls new = [Call_remover r].
Proof.
  intros Hexc; specialize (Hexc (trace w)); run_py.
  destruct (ext_outcome env (Call_remover r) (trace w)) as [e|].
  - rewrite Hexc; simpl; rewrite <- app_assoc.
    eexists; repeat split; reflexivity.
  - eexists; repeat split; reflexivity.
Qed.

(** The loop of [stop] over the removers: every remover is called, in
    order, whether or not an earlier one raised. *)
Lemma remove_listeners_run (env : Env) :
  (forall r, raises_only_Exception env (Call_remover r)) ->
  forall (removers : list Remover) (w : World),
  exists new,
    for_each removers
      (fun remover =>
         try_except_Exception (call (Call_remover remover))
           (_LOGGER DEBUG "Error removing listener")) env w
    = (Returns tt, mkWorld (self w) (trace w ++ new))
    /\ removals new = removers
    /\ ext_calls new = map Call_remover removers.
Proof.
  intros Hexc removers.
  induction removers as [|r rest IH]; intros w.
  - exists []; simpl; unfold ret; rewrite app_nil_r.
    destruct w; repeat split; reflexivity.
  - simpl; unfold bind at 1.
    destruct (remove_listener_run env r w (Hexc r))
      as (new1 & Hrun1 & Hrem1 & Hext1).
    rewrite Hrun1.
    destruct (IH (mkWorld (self w) (trace w ++ new1)))
      as (new & Hrun & Hrem & Hext).
    rewrite Hrun; simpl.
    exists (new1 ++ new); rewrite <- app_assoc.
    split; [reflexivity|].
    rewrite removals_app, ext_calls_app, Hrem1, Hext1, Hrem, Hext.
    split; reflexivity.
Qed.

Lemma stop_running_eq (env : Env) (w : World) :
  SendspinMpris._running (self w) = true ->
  stop env w
  = (for_each (SendspinMpris._listener_removers (self w))
       (fun remover =>
          try_except_Exception (call (Call_remover remover))
            (_LOGGER DEBUG "Error removing listener")) ;;
     stop_after_removals) env
      (mkWorld
         (SendspinMpris.set_event_adapter None
            (SendspinMpris.set_running false (self w)))
         (trace w)).
Proof.
  intros Hrun; unfold stop.
  unfold bind at 1, read_self at 1; rewrite Hrun; reflexivity.
Qed.

(** The end of [stop]: the list is cleared first; a failing [quit] is
    logged; only a failing [join] would reach the caller. *)
Lemma stop_after_removals_run (env : Env) (w : World) :
  exists new,
    let w' := after_ (stop_after_removals env w) in
    trace w' = trace w ++ new
    /\ removals new = []
    /\ SendspinMpris._listener_removers (self w') = []
    /\ SendspinMpris._running (self w') = SendspinMpris._running (self w)
    /\ SendspinMpris._event_adapter (self w')
       = SendspinMpris._event_adapter (self w)
    /\ state_of w' = state_of w
    /\ (raises_only_Exception env Server_quit ->
        always_returns env (Thread_join 1) ->
        fst (stop_after_removals env w) = Returns tt
        /\ SendspinMpris._server (self w') = None
        /\ SendspinMpris._thread (self w') = None).
Proof.
  unfold stop_after_removals; run_py.
  destruct (SendspinMpris._server (self w)) as [srv|] eqn:Hsrv; simpl;
    [pose proof (fun H : raises_only_Exception env Server_quit =>
                   H (trace w)) as Hquit';
     destruct (ext_outcome env Server_quit (trace w)) as [e|]; simpl;
     [destruct (isinstance_Exception e) eqn:He; simpl|]|];
    try (destruct (SendspinMpris._thread (self w)) as [th|] eqn:Hth; simpl;
         [match goal with
          | |- context [ext_outcome env (Thread_join 1) ?t] =>
              pose proof (fun H : always_returns env (Thread_join 1) =>
                            H t) as Hjoin';
              destruct (ext_outcome env (Thread_join 1) t); simpl
          end|]);
    rewrite <- ?app_assoc; simpl;
    eexists; (split; [reflexivity|]);
    (split; [reflexivity|]); (split; [reflexivity|]);
    (split; [reflexivity|]); (split; [reflexivity|]);
    (split; [reflexivity|]);
    intros Hquit Hjoin;
    try (specialize (Hquit' Hquit); discriminate Hquit');
    try (specialize (Hjoin' Hjoin); discriminate Hjoin');
    repeat split; try reflexivity; try assumption.
Qed.

(** [stop] on a running object, when the removers raise nothing but
    instances of [Exception]. *)
Lemma stop_running (env : Env) (w : World) :
  SendspinMpris._running (self w) = true ->
  (forall r, raises_only_Exception env (Call_remover r)) ->
  let w' := after_ (stop env w) in
  removals (added w w') = SendspinMpris._listener_removers (self w)
  /\ SendspinMpris._listener_removers (self w') = []
  /\ SendspinMpris._running (self w') = false
  /\ SendspinMpris._event_adapter (self w') = None
  /\ state_of w' = state_of w
  /\ (raises_only_Exception env Server_quit ->
      always_returns env (Thread_join 1) ->
      fst (stop env w) = Returns tt
      /\ SendspinMpris._server (self w') = None
      /\ SendspinMpris._thread (self w') = None).
Proof.
  intros Hrun Hexc w'; subst w'.
  rewrite (stop_running_eq env w Hrun); unfold bind at 1 2 3 4 5 6 7 8.
  destruct (remove_listeners_run env Hexc
              (SendspinMpris._listener_removers (self w))
              (mkWorld
                 (SendspinMpris.set_event_adapter None
                    (SendspinMpris.set_running false (self w)))
                 (trace w)))
    as (new1 & Hrun1 & Hrem1 & _).
  rewrite Hrun1; simpl self; simpl trace.
  match goal with |- context [stop_after_removals env ?w1] =>
    destruct (stop_after_removals_run env w1)
      as (new2 & Hnew2 & Hrem2 & Hlist & Hflag & Hea & Hst & Hret)
  end.
  simpl in Hnew2, Hflag, Hea, Hst.
  rewrite Hlist, Hflag, Hea, Hst.
  erewrite added_app by (rewrite Hnew2, <- app_assoc; reflexivity).
  rewrite removals_app, Hrem1, Hrem2, app_nil_r.
  repeat split; try reflexivity; apply Hret; assumption.
Qed.





(** ** The claims *)

(** C1.  A metadata event with a metadata payload makes the handler compute
    each of title, artist and album as the previous state value when the
    incoming field is the undefined sentinel and as the incoming value
    otherwise, an explicit null included: these are the arguments it passes
    to [set_metadata] and the values the state holds afterwards.  In
    particular, after [set_metadata(title="A")] and a metadata event with an
    undefined title and artist "B", the state has title "A" and artist "B". *)
Theorem C1_metadata_fields_keep_or_adopt :
  (forall (env : Env) (w : World) (metadata : Metadata.t)
          (controller : option ControllerPayload.t),
     let w' := after_ (_on_metadata_update
                         (ServerStatePayload.mk (Some metadata) controller)
                         env w) in
     let title :=
       match Metadata.title metadata with
       | Undefined => MprisState.title (state_of w)
       | Given v => v
       end in
     let artist :=
       match Metadata.artist metadata with
       | Undefined => MprisState.artist (state_of w)
       | Given v => v
       end in
     let album :=
       match Metadata.album metadata with
       | Undefined => MprisState.album (state_of w)
       | Given v => v
       end in
     (exists duration_ms rest,
        invocations (trace w')
        = invocations (trace w)
          ++ Set_metadata title artist album duration_ms :: rest)
     /\ MprisState.title (state_of w') = title
     /\ MprisState.artist (state_of w') = artist
     /\ MprisState.album (state_of w') = album)
  /\ (forall (env1 env2 : Env) (w : World) (album : Field (option string))
             (progress : Field (option Progress.t))
             (controller : option ControllerPayload.t),
        let w1 := after_ (call_set_metadata
                            (mk_kwargs (Some (Some "A")) None None None)
                            env1 w) in
        let w2 := after_ (_on_metadata_update
                            (ServerStatePayload.mk
                               (Some (Metadata.mk Undefined (Given (Some "B"))
                                        album progress))
                               controller)
                            env2 w1) in
        MprisState.title (state_of w2) = Some "A"
        /\ MprisState.artist (state_of w2) = Some "B").
Proof.
  assert (Hgen : forall env w metadata controller,
    let w' := after_ (_on_metadata_update
                        (ServerStatePayload.mk (Some metadata) controller)
                        env w) in
    (exists duration_ms rest,
       invocations (trace w')
       = invocations (trace w)
         ++ Set_metadata
              (keep_or_adopt (Metadata.title metadata)
                 (MprisState.title (state_of w)))
              (keep_or_adopt (Metadata.artist metadata)
                 (MprisState.artist (state_of w)))
              (keep_or_adopt (Metadata.album metadata)
                 (MprisState.album (state_of w)))
              duration_ms :: rest)
    /\ MprisState.title (state_of w')
       = keep_or_adopt (Metadata.title metadata)
           (MprisState.title (state_of w))
    /\ MprisState.artist (state_of w')
       = keep_or_adopt (Metadata.artist metadata)
           (MprisState.artist (state_of w))
    /\ MprisState.album (state_of w')
       = keep_or_adopt (Metadata.album metadata)
           (MprisState.album (state_of w))).
  { intros env w metadata controller w'; subst w'.
    handler_steps env w metadata controller.
    destruct r1 as [[]|e];
      [destruct (computed_progress metadata (state_of w)) as [p|]|];
      unfold after_, state_of; simpl; rewrite ?Hself; simpl;
      (split; [|repeat split; reflexivity]);
      eexists; eexists; rewrite Hnew; split_trace; rewrite Hinv;
      simpl; rewrite <- ?app_assoc; reflexivity. }
  split.
  - intros env w metadata controller; apply Hgen.
  - intros env1 env2 w album progress controller w1 w2.
    destruct (Hgen env2 w1
                (Metadata.mk Undefined (Given (Some "B")) album progress)
                controller) as (_ & Ht & Ha & _).
    fold w2 in Ht, Ha; simpl in Ht, Ha.
    split; [|exact Ha].
    rewrite Ht; subst w1; unfold call_set_metadata; simpl.
    rewrite set_metadata_state; reflexivity.
Qed.

(** C2, as stated, fails: an event without a progress sub-field, received
    while a progress is known, does not update the progress and still
    reaches the progress setter. *)
Lemma C2_progress_setter_called_without_update :
  ~ progress_rule_as_stated quiet_env playing_world empty_update.
Proof.
  unfold progress_rule_as_stated; intros [_ Hcalled].
  vm_compute in Hcalled; discriminate Hcalled.
Qed.

(** C2, amended.  For every metadata event the handler takes duration and
    progress from the event's progress sub-field when that sub-field is
    present and not null, and from the previous state otherwise; it calls
    the metadata setter with that duration, and afterwards calls the
    progress setter exactly when the progress it holds is not [None],
    whether that progress came from the event or from the previous state. *)
Theorem C2_progress_setter_called_when_progress_known (env : Env)
    (w : World) (payload : ServerStatePayload.t) :
  raises_only_Exception env (Notify on_title) ->
  match ServerStatePayload.metadata payload with
  | None => _on_metadata_update payload env w = (Returns tt, w)
  | Some metadata =>
      let duration_ms :=
        match Metadata.progress metadata with
        | Given (Some progress) => Progress.track_duration progress
        | Given None | Undefined => MprisState.duration_ms (state_of w)
        end in
      let progress_ms :=
        match Metadata.progress metadata with
        | Given (Some progress) => Progress.track_progress progress
        | Given None | Undefined => MprisState.progress_ms (state_of w)
        end in
      exists w' title artist album,
        _on_metadata_update payload env w = (Returns tt, w')
        /\ MprisState.duration_ms (state_of w') = duration_ms
        /\ MprisState.progress_ms (state_of w')
           = match progress_ms with
             | Some p => Some p
             | None => MprisState.progress_ms (state_of w)
             end
        /\ invocations (added w w')
           = Set_metadata title artist album duration_ms
             :: match progress_ms with
                | Some p => [Set_progress (Some p)]
                | None => []
                end
  end.
Proof.
  intros Hexc.
  destruct payload as [[metadata|] controller]; simpl; [|reflexivity].
  change (match Metadata.progress metadata with
          | Given (Some progress) => Progress.track_duration progress
          | _ => MprisState.duration_ms (state_of w)
          end) with (computed_duration metadata (state_of w)).
  change (match Metadata.progress metadata with
          | Given (Some progress) => Progress.track_progress progress
          | _ => MprisState.progress_ms (state_of w)
          end) with (computed_progress metadata (state_of w)).
  handler_steps env w metadata controller.
  rewrite (Hret Hexc).
  destruct (computed_progress metadata (state_of w)) as [p|];
    eexists; eexists; eexists; eexists; (split; [reflexivity|]);
    unfold state_of; simpl; rewrite ?Hself; simpl;
    (split; [reflexivity|]); (split; [reflexivity|]).
  - erewrite added_app
      by (simpl; rewrite Hnew, <- app_assoc; reflexivity).
    split_trace; rewrite Hinv; reflexivity.
  - erewrite added_app by exact Hnew.
    exact Hinv.
Qed.

(** The amended C2 at the event of the counterexample: nothing is updated,
    the known progress is passed on. *)
Lemma C2_progress_setter_called_when_progress_known_witness :
  exists w' title artist album,
    _on_metadata_update (ServerStatePayload.mk (Some empty_update) None)
      quiet_env playing_world = (Returns tt, w')
    /\ MprisState.duration_ms (state_of w') = None
    /\ MprisState.progress_ms (state_of w') = Some 5000
    /\ invocations (added playing_world w')
       = [Set_metadata title artist album None; Set_progress (Some 5000)].
Proof.
  exact (C2_progress_setter_called_when_progress_known quiet_env
           playing_world (ServerStatePayload.mk (Some empty_update) None)
           (fun _ => I)).
Defined.

(** C3.  With a notifier present, [set_progress] makes no change
    notification and no other external call, and each of [set_metadata],
    [set_playback_state], [set_volume] and [set_supported_commands] makes
    exactly one, its own; the notifier is called after the fields are
    written: the state it sees is the state the setter leaves, which holds
    the new values. *)
Theorem C3_one_notification_after_the_write (env : Env) (w : World)
    (ea : EventAdapter) :
  SendspinMpris._event_adapter (self w) = Some ea ->
  (forall progress_ms,
     let w' := after_ (set_progress progress_ms env w) in
     notifications (added w w') = []
     /\ ext_calls (added w w') = []
     /\ MprisState.progress_ms (state_of w') = progress_ms)
  /\ (forall title artist album duration_ms,
        let w' := after_ (set_metadata title artist album duration_ms env w) in
        notifications (added w w') = [(on_title, state_of w')]
        /\ ext_calls (added w w') = [Notify on_title]
        /\ MprisState.title (state_of w') = title
        /\ MprisState.artist (state_of w') = artist
        /\ MprisState.album (state_of w') = album
        /\ MprisState.duration_ms (state_of w') = duration_ms)
  /\ (forall state,
        let w' := after_ (set_playback_state state env w) in
        notifications (added w w') = [(on_playpause, state_of w')]
        /\ ext_calls (added w w') = [Notify on_playpause]
        /\ MprisState.playback_state (state_of w') = Some state)
  /\ (forall volume muted,
        let w' := after_ (set_volume volume muted env w) in
        notifications (added w w') = [(on_volume, state_of w')]
        /\ ext_calls (added w w') = [Notify on_volume]
        /\ MprisState.volume (state_of w') = volume
        /\ MprisState.muted (state_of w') = muted)
  /\ (forall commands,
        let w' := after_ (set_supported_commands commands env w) in
        notifications (added w w') = [(on_options, state_of w')]
        /\ ext_calls (added w w') = [Notify on_options]
        /\ MprisState.supported_commands (state_of w') = commands).
Proof.
  intros Hea; split; [|split; [|split; [|split]]].
  - intros progress_ms w'; subst w'; rewrite set_progress_eq.
    unfold after_; simpl.
    erewrite added_app by reflexivity; repeat split; reflexivity.
  - intros title artist album duration_ms w'; subst w'.
    rewrite set_metadata_eq.
    match goal with |- context [emit_change ?s ?a ?b ?e (mkWorld
        (SendspinMpris.set_state ?st _) (_ ++ [Enter ?c]))] =>
      destruct (notifying_setter_effects s a b e w c st)
        as (Hst & _ & Hnot & Hext)
    end.
    rewrite Hea in Hnot, Hext; rewrite Hnot, Hext, Hst.
    repeat split; reflexivity.
  - intros state w'; subst w'; rewrite set_playback_state_eq.
    match goal with |- context [emit_change ?s ?a ?b ?e (mkWorld
        (SendspinMpris.set_state ?st _) (_ ++ [Enter ?c]))] =>
      destruct (notifying_setter_effects s a b e w c st)
        as (Hst & _ & Hnot & Hext)
    end.
    rewrite Hea in Hnot, Hext; rewrite Hnot, Hext, Hst.
    repeat split; reflexivity.
  - intros volume muted w'; subst w'; rewrite set_volume_eq.
    match goal with |- context [emit_change ?s ?a ?b ?e (mkWorld
        (SendspinMpris.set_state ?st _) (_ ++ [Enter ?c]))] =>
      destruct (notifying_setter_effects s a b e w c st)
        as (Hst & _ & Hnot & Hext)
    end.
    rewrite Hea in Hnot, Hext; rewrite Hnot, Hext, Hst.
    repeat split; reflexivity.
  - intros commands w'; subst w'; rewrite set_supported_commands_eq.
    match goal with |- context [emit_change ?s ?a ?b ?e (mkWorld
        (SendspinMpris.set_state ?st _) (_ ++ [Enter ?c]))] =>
      destruct (notifying_setter_effects s a b e w c st)
        as (Hst & _ & Hnot & Hext)
    end.
    rewrite Hea in Hnot, Hext; rewrite Hnot, Hext, Hst.
    repeat split; reflexivity.
Qed.

(** C3 on a started object: [set_volume(30, muted=True)]. *)
Lemma C3_one_notification_after_the_write_witness :
  let w' := after_ (set_volume 30 true quiet_env started_world) in
  notifications (added started_world w') = [(on_volume, state_of w')]
  /\ ext_calls (added started_world w') = [Notify on_volume]
  /\ MprisState.volume (state_of w') = 30
  /\ MprisState.muted (state_of w') = true.
Proof.
  exact (proj1 (proj2 (proj2 (proj2
           (C3_one_notification_after_the_write quiet_env started_world
              _ eq_refl)))) 30 true).
Defined.

(** C4.  When the change notification a setter sends raises an exception,
    the setter catches it and returns normally, and the state holds the
    values the setter wrote before the call: nothing is rolled back.
    [set_progress] sends no notification and always returns. *)
Theorem C4_notification_failure_is_swallowed (env : Env) (w : World)
    (ea : EventAdapter) (e : PyExc) :
  SendspinMpris._event_adapter (self w) = Some ea ->
  isinstance_Exception e = true ->
  (forall title artist album duration_ms,
     notification_outcome env w
       (Set_metadata title artist album duration_ms) on_title = Some e ->
     exists w',
       set_metadata title artist album duration_ms env w = (Returns tt, w')
       /\ ext_calls (added w w') = [Notify on_title]
       /\ MprisState.title (state_of w') = title
       /\ MprisState.artist (state_of w') = artist
       /\ MprisState.album (state_of w') = album
       /\ MprisState.duration_ms (state_of w') = duration_ms)
  /\ (forall state,
        notification_outcome env w (Set_playback_state state) on_playpause
        = Some e ->
        exists w',
          set_playback_state state env w = (Returns tt, w')
          /\ ext_calls (added w w') = [Notify on_playpause]
          /\ MprisState.playback_state (state_of w') = Some state)
  /\ (forall volume muted,
        notification_outcome env w (Set_volume volume muted) on_volume
        = Some e ->
        exists w',
          set_volume volume muted env w = (Returns tt, w')
          /\ ext_calls (added w w') = [Notify on_volume]
          /\ MprisState.volume (state_of w') = volume
          /\ MprisState.muted (state_of w') = muted)
  /\ (forall commands,
        notification_outcome env w (Set_supported_commands commands)
          on_options = Some e ->
        exists w',
          set_supported_commands commands env w = (Returns tt, w')
          /\ ext_calls (added w w') = [Notify on_options]
          /\ MprisState.supported_commands (state_of w') = commands)
  /\ (forall progress_ms,
        exists w',
          set_progress progress_ms env w = (Returns tt, w')
          /\ ext_calls (added w w') = []
          /\ MprisState.progress_ms (state_of w') = progress_ms).
Proof.
  intros Hea Hexc; split; [|split; [|split; [|split]]].
  - intros title artist album duration_ms Hout.
    rewrite set_metadata_eq.
    erewrite notifying_setter_swallows by eassumption.
    eexists; split; [reflexivity|].
    erewrite added_app by reflexivity.
    repeat split; reflexivity.
  - intros state Hout.
    rewrite set_playback_state_eq.
    erewrite notifying_setter_swallows by eassumption.
    eexists; split; [reflexivity|].
    erewrite added_app by reflexivity.
    repeat split; reflexivity.
  - intros volume muted Hout.
    rewrite set_volume_eq.
    erewrite notifying_setter_swallows by eassumption.
    eexists; split; [reflexivity|].
    erewrite added_app by reflexivity.
    repeat split; reflexivity.
  - intros commands Hout.
    rewrite set_supported_commands_eq.
    erewrite notifying_setter_swallows by eassumption.
    eexists; split; [reflexivity|].
    erewrite added_app by reflexivity.
    repeat split; reflexivity.
  - intros progress_ms; rewrite set_progress_eq.
    eexists; split; [reflexivity|].
    erewrite added_app by reflexivity.
    repeat split; reflexivity.
Qed.

(** C4 on a started object whose notifier fails on every call. *)
Lemma C4_notification_failure_is_swallowed_witness :
  notification_outcome failing_notifier_env started_world
    (Set_volume 30 true) on_volume = Some (OtherException "DBusError")
  /\ exists w',
       set_volume 30 true failing_notifier_env started_world
       = (Returns tt, w')
       /\ ext_calls (added started_world w') = [Notify on_volume]
       /\ MprisState.volume (state_of w') = 30
       /\ MprisState.muted (state_of w') = true.
Proof.
  split; [reflexivity|].
  exact (proj1 (proj2 (proj2
           (C4_notification_failure_is_swallowed failing_notifier_env
              started_world _ (OtherException "DBusError")
              eq_refl eq_refl))) 30 true eq_refl).
Defined.

(** C5.  [stop()] on an object that is not running changes nothing.  On a
    running object it calls every registered remover, in order, also after
    one of them raised an exception, which it catches; the remover list is
    empty afterwards and the running flag is down; and [stop()] returns,
    a failing server shutdown being caught as well, when the bounded join
    of the thread returns. *)
Theorem C5_stop_removes_every_listener (env : Env) (w : World) :
  (forall r, raises_only_Exception env (Call_remover r)) ->
  (SendspinMpris._running (self w) = false -> stop env w = (Returns tt, w))
  /\ (SendspinMpris._running (self w) = true ->
      let w' := after_ (stop env w) in
      removals (added w w') = SendspinMpris._listener_removers (self w)
      /\ SendspinMpris._listener_removers (self w') = []
      /\ SendspinMpris._running (self w') = false
      /\ (raises_only_Exception env Server_quit ->
          always_returns env (Thread_join 1) ->
          fst (stop env w) = Returns tt)).
Proof.
  intros Hexc; split.
  - intros Hidle; unfold stop, bind, read_self, ret; rewrite Hidle.
    reflexivity.
  - intros Hrun w'; subst w'.
    destruct (stop_running env w Hrun Hexc)
      as (Hrem & Hlist & Hflag & _ & _ & Hret).
    repeat split; try assumption.
    intros Hquit Hjoin; apply Hret; assumption.
Qed.

(** C5 on a started object whose second remover and whose server shutdown
    fail: all three removers are called and [stop()] returns. *)
Lemma C5_stop_removes_every_listener_witness :
  let w' := after_ (stop failing_teardown_env started_world) in
  ext_outcome failing_teardown_env
    (Call_remover (RemoverOf group_update_listener)) []
  = Some (OtherException "ValueError")
  /\ removals (added started_world w')
     = [RemoverOf metadata_listener; RemoverOf group_update_listener;
        RemoverOf controller_state_listener]
  /\ SendspinMpris._listener_removers (self w') = []
  /\ SendspinMpris._running (self w') = false
  /\ fst (stop failing_teardown_env started_world) = Returns tt.
Proof.
  assert (Hexc : forall r,
            raises_only_Exception failing_teardown_env (Call_remover r)).
  { intros [[]] tr; simpl; auto. }
  destruct (proj2 (C5_stop_removes_every_listener failing_teardown_env
                     started_world Hexc) eq_refl)
    as (Hrem & Hlist & Hflag & Hret).
  split; [reflexivity|].
  split; [exact Hrem|].
  split; [exact Hlist|].
  split; [exact Hflag|].
  apply Hret; intros tr; reflexivity.
Defined.

(** C6.  When the protocol library is unavailable, [start()] returns
    without raising, leaves the object as it was, and makes no external
    call: a freshly built object keeps its running flag down and its
    remover list empty, and has no adapter, server, event adapter or
    thread. *)
Theorem C6_start_without_protocol_library (env : Env) (w : World) :
  MPRIS_AVAILABLE env = false ->
  (exists w',
     start env w = (Returns tt, w')
     /\ self w' = self w
     /\ ext_calls (added w w') = [])
  /\ (forall fresh client name desktop_entry tr,
        let w' := after_ (start env
                            (mkWorld
                               (__init__ fresh client name desktop_entry)
                               tr)) in
        SendspinMpris._running (self w') = false
        /\ SendspinMpris._listener_removers (self w') = []
        /\ SendspinMpris._adapter (self w') = None
        /\ SendspinMpris._server (self w') = None
        /\ SendspinMpris._event_adapter (self w') = None
        /\ SendspinMpris._thread (self w') = None).
Proof.
  intros Hoff; split.
  - rewrite (start_unavailable env w Hoff).
    eexists; split; [reflexivity|].
    erewrite added_app by reflexivity.
    split; reflexivity.
  - intros fresh client name desktop_entry tr w'; subst w'.
    rewrite start_unavailable by exact Hoff.
    repeat split; reflexivity.
Qed.

(** C6 on a freshly built object. *)
Lemma C6_start_without_protocol_library_witness :
  (exists w',
     start unavailable_env (mkWorld fresh_object []) = (Returns tt, w')
     /\ self w' = fresh_object
     /\ ext_calls (added (mkWorld fresh_object []) w') = [])
  /\ SendspinMpris._running
       (self (after_ (start unavailable_env (mkWorld fresh_object []))))
     = false.
Proof.
  destruct (C6_start_without_protocol_library unavailable_env
              (mkWorld fresh_object []) eq_refl) as (Hrun & Hfresh).
  split; [exact Hrun|].
  exact (proj1 (Hfresh empty_state (SendspinClient 0) "Sendspin" None [])).
Defined.

(** C7.  A group update whose playback state is null invokes no setter and
    leaves the object, the state and the trace as they were; a group update
    with a playback state calls the playback-state setter with it. *)
Theorem C7_group_update_calls_setter_unless_null :
  (forall (env : Env) (w : World),
     _on_group_update (GroupUpdateServerPayload.mk None) env w
     = (Returns tt, w))
  /\ (forall (env : Env) (w : World) (state : PlaybackStateType),
        let r := _on_group_update (GroupUpdateServerPayload.mk (Some state))
                   env w in
        r = set_playback_state state env w
        /\ invocations (added w (after_ r)) = [Set_playback_state state]
        /\ MprisState.playback_state (state_of (after_ r)) = Some state).
Proof.
  split; [reflexivity|].
  intros env w state r; subst r.
  split; [reflexivity|].
  change (_on_group_update (GroupUpdateServerPayload.mk (Some state)) env w)
    with (set_playback_state state env w).
  rewrite set_playback_state_eq.
  match goal with |- context [emit_change ?s ?a ?b ?e (mkWorld
      (SendspinMpris.set_state ?st _) (_ ++ [Enter ?c]))] =>
    destruct (notifying_setter_effects s a b e w c st)
      as (Hst & Hinv & _ & _)
  end.
  rewrite Hinv, Hst; split; reflexivity.
Qed.




(** C9.  A metadata event calls [set_progress] at most once and only with a
    value that is not [None], so the event leaves [State.progress_ms]
    unchanged or sets it to a value and never clears it, also when the
    progress sub-field is present and carries a null track progress; the
    same event can set [State.duration_ms] to [None] through the metadata
    setter. *)
Theorem C9_metadata_event_never_clears_progress :
  (forall (env : Env) (w : World) (controller : option ControllerPayload.t),
     _on_metadata_update (ServerStatePayload.mk None controller) env w
     = (Returns tt, w))
  /\ (forall (env : Env) (w : World) (metadata : Metadata.t)
          (controller : option ControllerPayload.t),
     let w' := after_ (_on_metadata_update
                         (ServerStatePayload.mk (Some metadata) controller)
                         env w) in
     (exists title artist album duration_ms,
        invocations (added w w')
        = [Set_metadata title artist album duration_ms]
        \/ exists p : Z,
             invocations (added w w')
             = [Set_metadata title artist album duration_ms;
                Set_progress (Some p)])
     /\ (MprisState.progress_ms (state_of w')
         = MprisState.progress_ms (state_of w)
         \/ exists p : Z, MprisState.progress_ms (state_of w') = Some p))
  /\ (forall (env : Env) (w : World) (title artist album : Field (option string))
             (track_duration : option Z)
             (controller : option ControllerPayload.t),
        let w' := after_ (_on_metadata_update
                            (ServerStatePayload.mk
                               (Some (Metadata.mk title artist album
                                        (Given (Some (Progress.mk None
                                                        track_duration)))))
                               controller)
                            env w) in
        MprisState.progress_ms (state_of w')
        = MprisState.progress_ms (state_of w))
  /\ (forall (env : Env) (w : World) (title artist album : Field (option string))
             (track_progress : option Z)
             (controller : option ControllerPayload.t),
        let w' := after_ (_on_metadata_update
                            (ServerStatePayload.mk
                               (Some (Metadata.mk title artist album
                                        (Given (Some (Progress.mk
                                                        track_progress
                                                        None)))))
                               controller)
                            env w) in
        MprisState.duration_ms (state_of w') = None
        /\ exists title' artist' album' rest,
             invocations (added w w')
             = Set_metadata title' artist' album' None :: rest).
Proof.
  split; [reflexivity|split; [|split]].
  - intros env w metadata controller w'; subst w'.
    handler_steps env w metadata controller.
    destruct r1 as [[]|e];
      [destruct (computed_progress metadata (state_of w)) as [p|] eqn:Hp|];
      unfold after_, state_of; simpl; rewrite ?Hself; simpl.
    + split; [|right; exists p; reflexivity].
      do 4 eexists; right; exists p.
      erewrite added_app
        by (simpl; rewrite Hnew, <- app_assoc; reflexivity).
      split_trace; rewrite Hinv; reflexivity.
    + split; [|left; reflexivity].
      do 4 eexists; left.
      erewrite added_app by exact Hnew; exact Hinv.
    + split; [|left; reflexivity].
      do 4 eexists; left.
      erewrite added_app by exact Hnew; exact Hinv.
  - intros env w title artist album track_duration controller w'; subst w'.
    handler_steps env w
      (Metadata.mk title artist album
         (Given (Some (Progress.mk None track_duration)))) controller.
    unfold computed_progress; simpl.
    destruct r1 as [[]|e]; unfold after_, state_of; simpl;
      rewrite Hself; reflexivity.
  - intros env w title artist album track_progress controller w'; subst w'.
    handler_steps env w
      (Metadata.mk title artist album
         (Given (Some (Progress.mk track_progress None)))) controller.
    unfold computed_progress, computed_duration in *; simpl in *.
    destruct r1 as [[]|e]; [destruct track_progress as [p|]|];
      unfold after_, state_of; simpl; rewrite ?Hself; simpl;
      (split; [reflexivity|]); do 4 eexists.
    + erewrite added_app
        by (simpl; rewrite Hnew, <- app_assoc; reflexivity).
      split_trace; rewrite Hinv; reflexivity.
    + erewrite added_app by exact Hnew; rewrite Hinv; reflexivity.
    + erewrite added_app by exact Hnew; rewrite Hinv; reflexivity.
Qed.

(** C10.  The four parameters of [set_metadata] default to [None]: an
    argument left out of a direct call writes [None] into its state field,
    whatever the field held, and [set_metadata(title="A")] alone leaves
    artist, album and duration_ms [None]. *)
Theorem C10_omitted_arguments_clear_fields :
  (forall (env : Env) (w : World) (kw : set_metadata_kwargs),
     let w' := after_ (call_set_metadata kw env w) in
     MprisState.title (state_of w')
     = match kw_title kw with Some v => v | None => None end
     /\ MprisState.artist (state_of w')
        = match kw_artist kw with Some v => v | None => None end
     /\ MprisState.album (state_of w')
        = match kw_album kw with Some v => v | None => None end
     /\ MprisState.duration_ms (state_of w')
        = match kw_duration_ms kw with Some v => v | None => None end)
  /\ (forall (env : Env) (w : World),
        let w' := after_ (call_set_metadata
                            (mk_kwargs (Some (Some "A")) None None None)
                            env w) in
        MprisState.title (state_of w') = Some "A"
        /\ MprisState.artist (state_of w') = None
        /\ MprisState.album (state_of w') = None
        /\ MprisState.duration_ms (state_of w') = None).
Proof.
  split.
  - intros env w [t a al d] w'; subst w'; unfold call_set_metadata.
    rewrite set_metadata_state; simpl.
    destruct t, a, al, d; repeat split; reflexivity.
  - intros env w w'; subst w'; unfold call_set_metadata.
    rewrite set_metadata_state; repeat split; reflexivity.
Qed.

(** ** Further properties of the lifecycle *)

(** Splits on every answer of the environment the goal still asks for. *)
Ltac case_outcomes :=
  repeat match goal with
         | |- context [match ext_outcome ?env ?c ?t with _ => _ end] =>
             let e := fresh "e" in
             let H := fresh "Hout" in
             destruct (ext_outcome env c t) as [e|] eqn:H; simpl
         end.

(** X1.  A [start()] that goes through: with the protocol library
    available, the object not running, an event loop running and every
    collaborator answering, [start()] returns with the running flag up; it
    has built the adapter from the client, the loop and the desktop entry,
    the server from the name and that adapter, the event adapter and the
    thread named "mpris-server" from that server, and it has appended the
    three removers, metadata, group update, controller state, to the list;
    its external calls are the three constructions, the thread start and
    the three registrations, in this order, and the state is untouched. *)
Theorem start_builds_and_registers (env : Env) (w : World) (loop : Loop) :
  MPRIS_AVAILABLE env = true ->
  SendspinMpris._running (self w) = false ->
  running_loop env = Some loop ->
  (forall c, In c start_calls -> always_returns env c) ->
  let adapter :=
    SendspinMprisAdapter (SendspinMpris._client (self w)) loop
      (SendspinMpris._desktop_entry (self w)) in
  let server := MprisServer (SendspinMpris._name (self w)) adapter in
  exists w',
    start env w = (Returns tt, w')
    /\ SendspinMpris._running (self w') = true
    /\ SendspinMpris._loop (self w') = Some loop
    /\ SendspinMpris._adapter (self w') = Some adapter
    /\ SendspinMpris._server (self w') = Some server
    /\ SendspinMpris._event_adapter (self w') = Some (MprisEventAdapter server)
    /\ SendspinMpris._thread (self w')
       = Some (DaemonThread "mpris-server" server)
    /\ SendspinMpris._listener_removers (self w')
       = SendspinMpris._listener_removers (self w) ++ attached_removers
    /\ state_of w' = state_of w
    /\ ext_calls (added w w') = start_calls.
Proof.
  intros Hon Hidle Hloop Hcoop adapter server.
  unfold start, _attach_client_listeners; run_py.
  rewrite Hon; simpl; rewrite Hidle, Hloop; simpl.
  rewrite !Hcoop by (unfold start_calls; simpl; tauto); simpl.
  eexists; split; [reflexivity|].
  unfold added; simpl; rewrite <- !app_assoc; simpl.
  rewrite drop_app_length.
  repeat split; reflexivity.
Qed.

(** X1 on a freshly built object with every collaborator answering. *)
Lemma start_builds_and_registers_witness :
  exists w',
    start quiet_env (mkWorld fresh_object []) = (Returns tt, w')
    /\ SendspinMpris._running (self w') = true
    /\ SendspinMpris._loop (self w') = Some (EventLoop 0)
    /\ SendspinMpris._adapter (self w')
       = Some (SendspinMprisAdapter (SendspinClient 0) (EventLoop 0) None)
    /\ SendspinMpris._server (self w')
       = Some (MprisServer "Sendspin"
                 (SendspinMprisAdapter (SendspinClient 0) (EventLoop 0) None))
    /\ SendspinMpris._event_adapter (self w')
       = Some (MprisEventAdapter
                 (MprisServer "Sendspin"
                    (SendspinMprisAdapter (SendspinClient 0) (EventLoop 0)
                       None)))
    /\ SendspinMpris._thread (self w')
       = Some (DaemonThread "mpris-server"
                 (MprisServer "Sendspin"
                    (SendspinMprisAdapter (SendspinClient 0) (EventLoop 0)
                       None)))
    /\ SendspinMpris._listener_removers (self w') = attached_removers
    /\ state_of w' = empty_state
    /\ ext_calls (added (mkWorld fresh_object []) w') = start_calls.
Proof.
  exact (start_builds_and_registers quiet_env (mkWorld fresh_object [])
           (EventLoop 0) eq_refl eq_refl eq_refl
           (fun c _ tr => eq_refl)).
Defined.

(** X2.  [start()] on a running object changes nothing and calls nobody,
    whatever the environment: it tests the running flag before it asks for
    the event loop, so it returns also where no loop is running. *)
Theorem start_while_running_is_noop (env : Env) (w : World) :
  SendspinMpris._running (self w) = true ->
  exists w',
    start env w = (Returns tt, w')
    /\ self w' = self w
    /\ ext_calls (added w w') = []
    /\ invocations (added w w') = [].
Proof.
  intros Hrun; unfold start; run_py.
  destruct (MPRIS_AVAILABLE env); simpl; rewrite ?Hrun;
    (eexists; split; [reflexivity|]);
    (erewrite added_app by reflexivity); repeat split; reflexivity.
Qed.

(** X2 on a started object, called again where no loop is running. *)
Lemma start_while_running_is_noop_witness :
  exists w',
    start no_loop_env started_world = (Returns tt, w')
    /\ self w' = self started_world
    /\ ext_calls (added started_world w') = []
    /\ invocations (added started_world w') = [].
Proof.
  exact (start_while_running_is_noop no_loop_env started_world eq_refl).
Defined.

(** X3.  The three ways a [start()] that gets past its guards can end.  It
    returns, the flag is up and the three removers are appended; or it
    raises before the flag is set, at a construction or at the thread
    start, and then the flag is down, the remover list is as it was and no
    registration was attempted; or it raises at a registration, and then
    the flag is up, the event adapter is set and the removers of the
    registrations made so far, fewer than three, are appended. *)
Theorem start_outcomes (env : Env) (w : World) (loop : Loop) :
  MPRIS_AVAILABLE env = true ->
  SendspinMpris._running (self w) = false ->
  running_loop env = Some loop ->
  let r := start env w in
  let w' := after_ r in
  (fst r = Returns tt
   /\ SendspinMpris._running (self w') = true
   /\ SendspinMpris._listener_removers (self w')
      = SendspinMpris._listener_removers (self w) ++ attached_removers)
  \/ (exists e,
        fst r = Raises e
        /\ SendspinMpris._running (self w') = false
        /\ SendspinMpris._listener_removers (self w')
           = SendspinMpris._listener_removers (self w)
        /\ forall k, ~ In (Add_listener k) (ext_calls (added w w')))
  \/ (exists e done,
        fst r = Raises e
        /\ SendspinMpris._running (self w') = true
        /\ is_Some (SendspinMpris._event_adapter (self w'))
        /\ SendspinMpris._listener_removers (self w')
           = SendspinMpris._listener_removers (self w) ++ done
        /\ (done = [] \/ done = [RemoverOf metadata_listener]
            \/ done = [RemoverOf metadata_listener;
                       RemoverOf group_update_listener])).
Proof.
  intros Hon Hidle Hloop r w'; subst w' r.
  unfold start, _attach_client_listeners; run_py.
  rewrite Hon; simpl; rewrite Hidle, Hloop; simpl.
  case_outcomes; unfold added; simpl;
    rewrite <- ?app_assoc; simpl; rewrite ?drop_app_length; simpl.
  all: first
    [ left; repeat split; reflexivity
    | right; left; eexists; split; [reflexivity|];
      split; [first [reflexivity | exact Hidle]|]; split; [reflexivity|];
      intros k Hin; simpl in Hin; intuition discriminate
    | right; right; eexists; exists []; split; [reflexivity|];
      split; [reflexivity|]; split; [eexists; reflexivity|];
      split; [symmetry; apply app_nil_r|]; auto
    | right; right; eexists; eexists; split; [reflexivity|];
      split; [reflexivity|]; split; [eexists; reflexivity|];
      split; [reflexivity|]; auto ].
Qed.

(** X3 when the client refuses the second listener: the third case. *)
Lemma start_outcomes_witness :
  let w' := after_ (start listener_failure_env (mkWorld fresh_object [])) in
  SendspinMpris._running (self w') = true
  /\ is_Some (SendspinMpris._event_adapter (self w')).
Proof.
  destruct (start_outcomes listener_failure_env (mkWorld fresh_object [])
              (EventLoop 0) eq_refl eq_refl eq_refl)
    as [(Hret & _) | [(e & _ & Hflag & _) | (e & done & _ & Hflag & Hea & _)]].
  - vm_compute in Hret; discriminate Hret.
  - vm_compute in Hflag; discriminate Hflag.
  - exact (conj Hflag Hea).
Defined.

(** X4.  When the thread cannot be started, [start()] raises what
    [Thread.start] raised and leaves the running flag down, but the server,
    the event adapter and the thread object it had already stored stay in
    place; since the flag is down, a later [stop()] returns at once and
    releases none of them. *)
Theorem start_thread_failure_is_not_undone (env : Env) (w : World)
    (loop : Loop) (e : PyExc) :
  MPRIS_AVAILABLE env = true ->
  SendspinMpris._running (self w) = false ->
  running_loop env = Some loop ->
  always_returns env New_SendspinMprisAdapter ->
  always_returns env New_Server ->
  always_returns env New_EventAdapter ->
  (forall tr, ext_outcome env Thread_start tr = Some e) ->
  let w' := after_ (start env w) in
  let server :=
    MprisServer (SendspinMpris._name (self w))
      (SendspinMprisAdapter (SendspinMpris._client (self w)) loop
         (SendspinMpris._desktop_entry (self w))) in
  fst (start env w) = Raises e
  /\ SendspinMpris._running (self w') = false
  /\ SendspinMpris._server (self w') = Some server
  /\ SendspinMpris._event_adapter (self w') = Some (MprisEventAdapter server)
  /\ SendspinMpris._thread (self w')
     = Some (DaemonThread "mpris-server" server)
  /\ SendspinMpris._listener_removers (self w')
     = SendspinMpris._listener_removers (self w)
  /\ forall env', stop env' w' = (Returns tt, w').
Proof.
  intros Hon Hidle Hloop Hadapter Hserver Hevents Hthread w' server.
  assert (Hfacts :
    fst (start env w) = Raises e
    /\ SendspinMpris._running (self w') = false
    /\ SendspinMpris._server (self w') = Some server
    /\ SendspinMpris._event_adapter (self w')
       = Some (MprisEventAdapter server)
    /\ SendspinMpris._thread (self w')
       = Some (DaemonThread "mpris-server" server)
    /\ SendspinMpris._listener_removers (self w')
       = SendspinMpris._listener_removers (self w)).
  { subst w' server; unfold start; run_py.
    rewrite Hon; simpl; rewrite Hidle, Hloop; simpl.
    rewrite Hadapter; simpl; rewrite Hserver; simpl; rewrite Hevents; simpl.
    rewrite Hthread; simpl.
    repeat split; try reflexivity; exact Hidle. }
  destruct Hfacts as (Hraise & Hflag & Hsrv & Hea & Hth & Hrem).
  repeat split; try assumption.
  intros env'; unfold stop, bind, read_self, ret; rewrite Hflag.
  reflexivity.
Qed.

(** X4 on a freshly built object. *)
Lemma start_thread_failure_is_not_undone_witness :
  let w' := after_ (start thread_failure_env (mkWorld fresh_object [])) in
  fst (start thread_failure_env (mkWorld fresh_object []))
  = Raises (RuntimeError "can't start new thread")
  /\ SendspinMpris._running (self w') = false
  /\ is_Some (SendspinMpris._event_adapter (self w'))
  /\ stop quiet_env w' = (Returns tt, w').
Proof.
  destruct (start_thread_failure_is_not_undone thread_failure_env
              (mkWorld fresh_object []) (EventLoop 0)
              (RuntimeError "can't start new thread")
              eq_refl eq_refl eq_refl (fun _ => eq_refl) (fun _ => eq_refl)
              (fun _ => eq_refl) (fun _ => eq_refl))
    as (Hraise & Hflag & _ & Hea & _ & _ & Hstop).
  split; [exact Hraise|].
  split; [exact Hflag|].
  split; [rewrite Hea; eexists; reflexivity|].
  exact (Hstop quiet_env).
Defined.

(** The loop over the removers touches nothing but the trace, however it
    ends. *)
Lemma remove_listeners_self (env : Env) (removers : list Remover) :
  forall w : World,
    self (after_ (for_each removers
                    (fun remover =>
                       try_except_Exception (call (Call_remover remover))
                         (_LOGGER DEBUG "Error removing listener")) env w))
    = self w.
Proof.
  induction removers as [|r rest IH]; intros w; [reflexivity|].
  simpl; unfold bind at 1.
  destruct (try_except_Exception (call (Call_remover r))
              (_LOGGER DEBUG "Error removing listener") env w)
    as [[[]|e] w1] eqn:Hbody.
  - rewrite IH.
    revert Hbody; run_py.
    destruct (ext_outcome env (Call_remover r) (trace w)) as [e|];
      [destruct (isinstance_Exception e)|];
      intros Hbody; inversion Hbody; reflexivity.
  - revert Hbody; run_py.
    destruct (ext_outcome env (Call_remover r) (trace w)) as [e'|];
      [destruct (isinstance_Exception e')|];
      intros Hbody; inversion Hbody; reflexivity.
Qed.

(** Whatever happens in it, [stop()] leaves the running flag down. *)
Lemma stop_lowers_flag (env : Env) (w : World) :
  SendspinMpris._running (self (after_ (stop env w))) = false.
Proof.
  destruct (SendspinMpris._running (self w)) eqn:Hrun.
  - rewrite (stop_running_eq env w Hrun); unfold bind at 1.
    match goal with |- context [for_each ?rs ?body env ?w0] =>
      pose proof (remove_listeners_self env rs w0) as Hself;
      destruct (for_each rs body env w0) as [[[]|e] w1]
    end; unfold after_ in *; simpl in *.
    + destruct (stop_after_removals_run env w1)
        as (new & _ & _ & _ & Hflag & _).
      simpl in Hflag; unfold after_ in Hflag.
      rewrite Hflag, Hself; reflexivity.
    + rewrite Hself; reflexivity.
  - unfold stop; run_py; rewrite Hrun; exact Hrun.
Qed.

(** X5.  [stop()] twice is [stop()] once: whatever the first call met, an
    exception it could not catch included, the second finds the flag down,
    returns at once and leaves the object and the trace as they are. *)
Theorem stop_twice_is_stop_once (env1 env2 : Env) (w : World) :
  let w1 := after_ (stop env1 w) in
  stop env2 w1 = (Returns tt, w1).
Proof.
  intros w1; pose proof (stop_lowers_flag env1 w) as Hflag.
  fold w1 in Hflag; unfold stop; run_py; rewrite Hflag; reflexivity.
Qed.

(** The end of [stop] when the shutdown raises nothing but instances of
    [Exception] and the join returns: which calls it makes and which
    attributes it resets. *)
Lemma stop_after_removals_calls (env : Env) (w : World) :
  raises_only_Exception env Server_quit ->
  always_returns env (Thread_join 1) ->
  exists new,
    let w' := after_ (stop_after_removals env w) in
    trace w' = trace w ++ new
    /\ ext_calls new
       = match SendspinMpris._server (self w) with
         | Some _ => [Server_quit]
         | None => []
         end
         ++ match SendspinMpris._thread (self w) with
            | Some _ => [Thread_join 1]
            | None => []
            end
    /\ SendspinMpris._adapter (self w') = SendspinMpris._adapter (self w)
    /\ SendspinMpris._loop (self w') = SendspinMpris._loop (self w).
Proof.
  intros Hquit Hjoin; unfold stop_after_removals; run_py.
  destruct (SendspinMpris._server (self w)) as [srv|] eqn:Hsrv; simpl;
    [specialize (Hquit (trace w));
     destruct (ext_outcome env Server_quit (trace w)) as [e|]; simpl;
     [rewrite Hquit; simpl|]|];
    (destruct (SendspinMpris._thread (self w)) as [th|] eqn:Hth; simpl;
     [rewrite Hjoin; simpl|]);
    rewrite <- ?app_assoc; simpl;
    eexists; (split; [reflexivity|]); repeat split; reflexivity.
Qed.

(** X6.  The order of a [stop()] that goes through.  On a running object,
    when removers and server shutdown raise nothing but instances of
    [Exception] and the join returns, [stop()] calls the registered
    removers in order, then [server.quit()] if a server is stored, then
    joins the thread, with a timeout of one second, if a thread is stored,
    and calls nothing else; it resets the event adapter, the server and the
    thread to [None], and keeps the adapter, the loop and the state. *)
Theorem stop_tears_down_in_order (env : Env) (w : World) :
  SendspinMpris._running (self w) = true ->
  (forall r, raises_only_Exception env (Call_remover r)) ->
  raises_only_Exception env Server_quit ->
  always_returns env (Thread_join 1) ->
  let w' := after_ (stop env w) in
  fst (stop env w) = Returns tt
  /\ ext_calls (added w w')
     = map Call_remover (SendspinMpris._listener_removers (self w))
       ++ match SendspinMpris._server (self w) with
          | Some _ => [Server_quit]
          | None => []
          end
       ++ match SendspinMpris._thread (self w) with
          | Some _ => [Thread_join 1]
          | None => []
          end
  /\ SendspinMpris._event_adapter (self w') = None
  /\ SendspinMpris._server (self w') = None
  /\ SendspinMpris._thread (self w') = None
  /\ SendspinMpris._adapter (self w') = SendspinMpris._adapter (self w)
  /\ SendspinMpris._loop (self w') = SendspinMpris._loop (self w)
  /\ state_of w' = state_of w.
Proof.
  intros Hrun Hexc Hquit Hjoin w'; subst w'.
  destruct (remove_listeners_run env Hexc
              (SendspinMpris._listener_removers (self w))
              (mkWorld
                 (SendspinMpris.set_event_adapter None
                    (SendspinMpris.set_running false (self w)))
                 (trace w)))
    as (new1 & Hrun1 & _ & Hext1).
  assert (Heq : stop env w
                = stop_after_removals env
                    (mkWorld
                       (SendspinMpris.set_event_adapter None
                          (SendspinMpris.set_running false (self w)))
                       (trace w ++ new1))).
  { rewrite (stop_running_eq env w Hrun); unfold bind at 1.
    rewrite Hrun1; reflexivity. }
  rewrite Heq; clear Heq Hrun1.
  match goal with |- context [stop_after_removals env ?w1] =>
    destruct (stop_after_removals_calls env w1 Hquit Hjoin)
      as (new2 & Hnew2 & Hext2 & Hadapter & Hloop);
    destruct (stop_after_removals_run env w1)
      as (new3 & _ & _ & _ & _ & Hea & Hst & Hret);
    destruct (Hret Hquit Hjoin) as (Hreturns & Hsrv & Hth)
  end.
  simpl in Hnew2, Hext2, Hadapter, Hloop, Hea, Hst.
  split; [exact Hreturns|].
  split; [|repeat split; assumption].
  erewrite added_app by (rewrite Hnew2, <- app_assoc; reflexivity).
  rewrite ext_calls_app, Hext1, Hext2; reflexivity.
Qed.

(** X6 on a started object whose second remover and whose server shutdown
    fail. *)
Lemma stop_tears_down_in_order_witness :
  let w' := after_ (stop failing_teardown_env started_world) in
  fst (stop failing_teardown_env started_world) = Returns tt
  /\ ext_calls (added started_world w')
     = [Call_remover (RemoverOf metadata_listener);
        Call_remover (RemoverOf group_update_listener);
        Call_remover (RemoverOf controller_state_listener);
        Server_quit; Thread_join 1]
  /\ SendspinMpris._event_adapter (self w') = None
  /\ SendspinMpris._server (self w') = None
  /\ SendspinMpris._thread (self w') = None
  /\ SendspinMpris._adapter (self w')
     = Some (SendspinMprisAdapter (SendspinClient 0) (EventLoop 0) None)
  /\ SendspinMpris._loop (self w') = Some (EventLoop 0)
  /\ state_of w' = empty_state.
Proof.
  assert (Hexc : forall r,
            raises_only_Exception failing_teardown_env (Call_remover r)).
  { intros [[]] tr; simpl; auto. }
  exact (stop_tears_down_in_order failing_teardown_env started_world
           eq_refl Hexc (fun _ => eq_refl) (fun _ => eq_refl)).
Defined.

(** ** Further properties of the setters and the handlers *)

(** A notifying setter, run to its end, when its notifier raises nothing
    but instances of [Exception]. *)
Lemma notifying_setter_run (s : Signal) (warning failure : string)
    (env : Env) (w : World) (c : Invocation) (written : MprisState.t) :
  raises_only_Exception env (Notify s) ->
  exists new,
    emit_change s warning failure env
      (mkWorld (SendspinMpris.set_state written (self w))
         (trace w ++ [Enter c]))
    = (Returns tt,
       mkWorld (SendspinMpris.set_state written (self w))
         (trace w ++ Enter c :: new))
    /\ invocations new = []
    /\ notifications new
       = match SendspinMpris._event_adapter (self w) with
         | Some _ => [(s, written)]
         | None => []
         end.
Proof.
  intros Hexc; rewrite emit_change_eq; unfold emit_change_result; simpl.
  specialize (Hexc (trace w ++ [Enter c])).
  destruct (SendspinMpris._event_adapter (self w)) as [ea|];
    [destruct (ext_outcome env (Notify s) (trace w ++ [Enter c])) as [e|];
     [rewrite Hexc|]|];
    rewrite <- ?app_assoc; simpl;
    eexists; (split; [reflexivity|]); split; reflexivity.
Qed.

(** X7.  Without an event adapter, before [start()] or after [stop()],
    each notifying setter still writes its arguments into the state, makes
    no external call, logs one warning and returns. *)
Theorem setters_without_notifier_only_write (env : Env) (w : World) :
  SendspinMpris._event_adapter (self w) = None ->
  (forall title artist album duration_ms,
     exists w',
       set_metadata title artist album duration_ms env w = (Returns tt, w')
       /\ added w w'
          = [Enter (Set_metadata title artist album duration_ms);
             Logged WARNING
               "MPRIS event adapter not initialized; cannot emit metadata change"]
       /\ state_of w'
          = with_metadata title artist album duration_ms (state_of w))
  /\ (forall state,
        exists w',
          set_playback_state state env w = (Returns tt, w')
          /\ added w w'
             = [Enter (Set_playback_state state);
                Logged WARNING
                  "MPRIS event adapter not initialized; cannot emit playback state change"]
          /\ MprisState.playback_state (state_of w') = Some state)
  /\ (forall volume muted,
        exists w',
          set_volume volume muted env w = (Returns tt, w')
          /\ added w w'
             = [Enter (Set_volume volume muted);
                Logged WARNING
                  "MPRIS event adapter not initialized; cannot emit volume change"]
          /\ MprisState.volume (state_of w') = volume
          /\ MprisState.muted (state_of w') = muted)
  /\ (forall commands,
        exists w',
          set_supported_commands commands env w = (Returns tt, w')
          /\ added w w'
             = [Enter (Set_supported_commands commands);
                Logged WARNING
                  "MPRIS event adapter not initialized; cannot emit options change"]
          /\ MprisState.supported_commands (state_of w') = commands).
Proof.
  intros Hnone; split; [|split; [|split]]; intros.
  - rewrite set_metadata_eq, emit_change_eq; unfold emit_change_result.
    simpl; rewrite Hnone, <- app_assoc; simpl.
    eexists; split; [reflexivity|].
    erewrite added_app by reflexivity; split; reflexivity.
  - rewrite set_playback_state_eq, emit_change_eq; unfold emit_change_result.
    simpl; rewrite Hnone, <- app_assoc; simpl.
    eexists; split; [reflexivity|].
    erewrite added_app by reflexivity; split; reflexivity.
  - rewrite set_volume_eq, emit_change_eq; unfold emit_change_result.
    simpl; rewrite Hnone, <- app_assoc; simpl.
    eexists; split; [reflexivity|].
    erewrite added_app by reflexivity; repeat split; reflexivity.
  - rewrite set_supported_commands_eq, emit_change_eq.
    unfold emit_change_result.
    simpl; rewrite Hnone, <- app_assoc; simpl.
    eexists; split; [reflexivity|].
    erewrite added_app by reflexivity; split; reflexivity.
Qed.

(** X7 on a freshly built object: [set_volume(30, muted=True)]. *)
Lemma setters_without_notifier_only_write_witness :
  exists w',
    set_volume 30 true quiet_env (mkWorld fresh_object []) = (Returns tt, w')
    /\ added (mkWorld fresh_object []) w'
       = [Enter (Set_volume 30 true);
          Logged WARNING
            "MPRIS event adapter not initialized; cannot emit volume change"]
    /\ MprisState.volume (state_of w') = 30
    /\ MprisState.muted (state_of w') = true.
Proof.
  exact (proj1 (proj2 (proj2
           (setters_without_notifier_only_write quiet_env
              (mkWorld fresh_object []) eq_refl))) 30 true).
Defined.

(** X8.  An exception of the notifier that is no instance of [Exception]
    (a [KeyboardInterrupt], say) is not caught: the setter raises it, after
    the notification call and without logging; the state holds the written
    values all the same. *)
Theorem setters_let_base_exceptions_through (env : Env) (w : World)
    (ea : EventAdapter) (e : PyExc) :
  SendspinMpris._event_adapter (self w) = Some ea ->
  isinstance_Exception e = false ->
  (forall title artist album duration_ms,
     notification_outcome env w
       (Set_metadata title artist album duration_ms) on_title = Some e ->
     exists w',
       set_metadata title artist album duration_ms env w = (Raises e, w')
       /\ added w w'
          = [Enter (Set_metadata title artist album duration_ms);
             Ext (Notify on_title) (state_of w')]
       /\ state_of w'
          = with_metadata title artist album duration_ms (state_of w))
  /\ (forall state,
        notification_outcome env w (Set_playback_state state) on_playpause
        = Some e ->
        exists w',
          set_playback_state state env w = (Raises e, w')
          /\ added w w'
             = [Enter (Set_playback_state state);
                Ext (Notify on_playpause) (state_of w')]
          /\ MprisState.playback_state (state_of w') = Some state)
  /\ (forall volume muted,
        notification_outcome env w (Set_volume volume muted) on_volume
        = Some e ->
        exists w',
          set_volume volume muted env w = (Raises e, w')
          /\ added w w'
             = [Enter (Set_volume volume muted);
                Ext (Notify on_volume) (state_of w')]
          /\ MprisState.volume (state_of w') = volume
          /\ MprisState.muted (state_of w') = muted)
  /\ (forall commands,
        notification_outcome env w (Set_supported_commands commands)
          on_options = Some e ->
        exists w',
          set_supported_commands commands env w = (Raises e, w')
          /\ added w w'
             = [Enter (Set_supported_commands commands);
                Ext (Notify on_options) (state_of w')]
          /\ MprisState.supported_commands (state_of w') = commands).
Proof.
  intros Hea Hexc; unfold notification_outcome.
  split; [|split; [|split]]; intros * Hout.
  - rewrite set_metadata_eq, emit_change_eq; unfold emit_change_result.
    simpl; rewrite Hea, Hout, Hexc, <- app_assoc; simpl.
    eexists; split; [reflexivity|].
    erewrite added_app by reflexivity; split; reflexivity.
  - rewrite set_playback_state_eq, emit_change_eq; unfold emit_change_result.
    simpl; rewrite Hea, Hout, Hexc, <- app_assoc; simpl.
    eexists; split; [reflexivity|].
    erewrite added_app by reflexivity; split; reflexivity.
  - rewrite set_volume_eq, emit_change_eq; unfold emit_change_result.
    simpl; rewrite Hea, Hout, Hexc, <- app_assoc; simpl.
    eexists; split; [reflexivity|].
    erewrite added_app by reflexivity; repeat split; reflexivity.
  - rewrite set_supported_commands_eq, emit_change_eq.
    unfold emit_change_result.
    simpl; rewrite Hea, Hout, Hexc, <- app_assoc; simpl.
    eexists; split; [reflexivity|].
    erewrite added_app by reflexivity; split; reflexivity.
Qed.

(** X8 on a started object, interrupted during the notification. *)
Lemma setters_let_base_exceptions_through_witness :
  exists w',
    set_volume 30 true interrupted_env started_world
    = (Raises (NonException "KeyboardInterrupt"), w')
    /\ added started_world w'
       = [Enter (Set_volume 30 true); Ext (Notify on_volume) (state_of w')]
    /\ MprisState.volume (state_of w') = 30
    /\ MprisState.muted (state_of w') = true.
Proof.
  exact (proj1 (proj2 (proj2
           (setters_let_base_exceptions_through interrupted_env
              started_world _ (NonException "KeyboardInterrupt")
              eq_refl eq_refl))) 30 true eq_refl).
Defined.

(** X9.  A controller-state event without a controller part does nothing.
    With one, and a notifier that raises nothing but instances of
    [Exception], the handler returns after calling [set_supported_commands]
    with the set of the listed commands and then [set_volume] with the
    volume and the mute flag: a command is in the state's set exactly when
    it is in the list, duplicates collapsing; volume and mute flag are the
    event's; the other fields keep their values.  With an event adapter
    present the options notification comes first and sees the new commands
    with the volume not yet written, the volume notification second. *)
Theorem controller_state_sets_commands_then_volume :
  (forall (env : Env) (w : World) (metadata : option Metadata.t),
     _on_controller_state (ServerStatePayload.mk metadata None) env w
     = (Returns tt, w))
  /\ (forall (env : Env) (w : World) (metadata : option Metadata.t)
             (controller : ControllerPayload.t),
        (forall s, raises_only_Exception env (Notify s)) ->
        let commands : gset string :=
          list_to_set (ControllerPayload.supported_commands controller) in
        exists w',
          _on_controller_state
            (ServerStatePayload.mk metadata (Some controller)) env w
          = (Returns tt, w')
          /\ invocations (added w w')
             = [Set_supported_commands commands;
                Set_volume (ControllerPayload.volume controller)
                  (ControllerPayload.muted controller)]
          /\ state_of w'
             = with_volume (ControllerPayload.volume controller)
                 (ControllerPayload.muted controller)
                 (MprisState.set_supported_commands commands (state_of w))
          /\ (forall c,
                c ∈ MprisState.supported_commands (state_of w')
                <-> In c (ControllerPayload.supported_commands controller))
          /\ notifications (added w w')
             = match SendspinMpris._event_adapter (self w) with
               | Some _ =>
                   [(on_options,
                     MprisState.set_supported_commands commands (state_of w));
                    (on_volume, state_of w')]
               | None => []
               end).
Proof.
  split; [reflexivity|].
  intros env w metadata controller Hexc commands.
  unfold _on_controller_state; simpl; unfold bind.
  fold commands; rewrite set_supported_commands_eq.
  destruct (notifying_setter_run on_options
              "MPRIS event adapter not initialized; cannot emit options change"
              "Failed to emit MPRIS options change" env w
              (Set_supported_commands commands)
              (MprisState.set_supported_commands commands (state_of w))
              (Hexc on_options)) as (new1 & Hrun1 & Hinv1 & Hnot1).
  rewrite Hrun1, set_volume_eq.
  match goal with |- context [emit_change ?s ?a ?b env (mkWorld
      (SendspinMpris.set_state ?st (self ?w1)) (trace ?w1 ++ [Enter ?c]))] =>
    destruct (notifying_setter_run s a b env w1 c st (Hexc on_volume))
      as (new2 & Hrun2 & Hinv2 & Hnot2)
  end.
  rewrite Hrun2; simpl in *.
  eexists; split; [reflexivity|].
  erewrite added_app by (simpl; rewrite <- app_assoc; reflexivity).
  simpl; split_trace; rewrite Hinv1, Hinv2, Hnot1, Hnot2.
  split; [reflexivity|].
  split; [reflexivity|].
  split.
  - intros c; unfold state_of, commands; simpl.
    rewrite elem_of_list_to_set, list_elem_of_In; reflexivity.
  - unfold state_of; simpl.
    destruct (SendspinMpris._event_adapter (self w)); reflexivity.
Qed.

(** X9 with a command listed twice and a notifier that fails on every
    call. *)
Lemma controller_state_sets_commands_then_volume_witness :
  exists w',
    _on_controller_state
      (ServerStatePayload.mk None
         (Some (ControllerPayload.mk ["play"; "pause"; "play"] 40 false)))
      failing_notifier_env started_world
    = (Returns tt, w')
    /\ MprisState.volume (state_of w') = 40
    /\ ("pause" ∈ MprisState.supported_commands (state_of w')
        <-> In "pause" ["play"; "pause"; "play"]).
Proof.
  destruct (proj2 controller_state_sets_commands_then_volume
              failing_notifier_env started_world None
              (ControllerPayload.mk ["play"; "pause"; "play"] 40 false)
              (fun s tr => eq_refl))
    as (w' & Hrun & _ & Hst & Hin & _).
  exists w'; split; [exact Hrun|].
  split; [rewrite Hst; reflexivity|].
  exact (Hin "pause").
Defined.

(** ** What only [start()] and [stop()] may change *)

Section OnlyWritesState.

Lemma set_state_same (o : SendspinMpris.t) :
  SendspinMpris.set_state (SendspinMpris._state o) o = o.
Proof. destruct o; reflexivity. Qed.

Lemma ows_ret {A : Type} (a : A) : only_writes_state (ret a).
Proof. intros env w; symmetry; apply set_state_same. Qed.

Lemma ows_read_self {A : Type} (f : SendspinMpris.t -> A) :
  only_writes_state (read_self f).
Proof. intros env w; symmetry; apply set_state_same. Qed.

Lemma ows_emit (e : Effect) : only_writes_state (emit e).
Proof. intros env w; symmetry; apply set_state_same. Qed.

Lemma ows_write_state (f : MprisState.t -> MprisState.t) :
  only_writes_state (write_state f).
Proof. intros env w; reflexivity. Qed.

Lemma ows_call (c : ExtCall) : only_writes_state (call c).
Proof.
  intros env w; unfold call, after_, state_of.
  destruct (ext_outcome env c (trace w)); symmetry; apply set_state_same.
Qed.

Lemma ows_bind {A B : Type} (m : M A) (k : A -> M B) :
  only_writes_state m -> (forall a, only_writes_state (k a)) ->
  only_writes_state (bind m k).
Proof.
  intros Hm Hk env w; specialize (Hm env w); unfold bind.
  destruct (m env w) as [[a|e] w1]; unfold after_, state_of in *;
    simpl in *; [|exact Hm].
  specialize (Hk a env w1); unfold after_, state_of in Hk.
  rewrite Hk, Hm; reflexivity.
Qed.

Lemma ows_try_except_Exception (body handler : M unit) :
  only_writes_state body -> only_writes_state handler ->
  only_writes_state (try_except_Exception body handler).
Proof.
  intros Hb Hh env w; specialize (Hb env w); unfold try_except_Exception.
  destruct (body env w) as [[a|e] w1]; unfold after_, state_of in *;
    simpl in *; [exact Hb|].
  destruct (isinstance_Exception e); simpl; [|exact Hb].
  specialize (Hh env w1); unfold after_, state_of in Hh.
  rewrite Hh, Hb; reflexivity.
Qed.

End OnlyWritesState.

(** Takes a setter or a handler apart along its binds. *)
Ltac only_state :=
  repeat first
    [ apply ows_ret | apply ows_read_self | apply ows_emit
    | apply ows_write_state | apply ows_call
    | apply ows_try_except_Exception
    | apply ows_bind; [|intros ?]
    | match goal with
      | |- only_writes_state (match ?x with _ => _ end) => destruct x
      | |- only_writes_state (let '(_, _) := ?x in _) => destruct x
      end ].

(** A setter or a handler writes the state record and nothing else. *)
Lemma perform_only_writes_state (r : Request) :
  is_lifecycle r = false -> only_writes_state (perform r).
Proof.
  destruct r; simpl; try discriminate; intros _.
  - unfold call_set_metadata, set_metadata, _LOGGER, read_state; only_state.
  - unfold set_progress; only_state.
  - unfold set_playback_state, _LOGGER; only_state.
  - unfold set_volume, _LOGGER; only_state.
  - unfold set_supported_commands, _LOGGER; only_state.
  - unfold _on_metadata_update, unless_undefined, set_metadata,
      set_progress, _LOGGER, read_state;
      only_state.
  - unfold _on_group_update, set_playback_state, _LOGGER; only_state.
  - unfold _on_controller_state, set_supported_commands, set_volume,
      _LOGGER; only_state.
Qed.

(** X10.  No setter and no handler touches anything but the state record:
    running flag, remover list, loop, adapter, server, event adapter and
    thread, like client, name and desktop entry, are after the call what
    they were before, whichever way the setter or handler ends; they change
    in [start()] and [stop()] alone. *)
Theorem setters_and_handlers_only_write_state (r : Request) (env : Env)
    (w : World) :
  is_lifecycle r = false ->
  let w' := after_ (perform r env w) in
  SendspinMpris._running (self w') = SendspinMpris._running (self w)
  /\ SendspinMpris._listener_removers (self w')
     = SendspinMpris._listener_removers (self w)
  /\ SendspinMpris._loop (self w') = SendspinMpris._loop (self w)
  /\ SendspinMpris._adapter (self w') = SendspinMpris._adapter (self w)
  /\ SendspinMpris._server (self w') = SendspinMpris._server (self w)
  /\ SendspinMpris._event_adapter (self w')
     = SendspinMpris._event_adapter (self w)
  /\ SendspinMpris._thread (self w') = SendspinMpris._thread (self w)
  /\ SendspinMpris._client (self w') = SendspinMpris._client (self w)
  /\ SendspinMpris._name (self w') = SendspinMpris._name (self w)
  /\ SendspinMpris._desktop_entry (self w')
     = SendspinMpris._desktop_entry (self w).
Proof.
  intros Hr w'; subst w'.
  rewrite (perform_only_writes_state r Hr env w).
  repeat split; reflexivity.
Qed.

(** X10 for [set_volume] on a started object. *)
Lemma setters_and_handlers_only_write_state_witness :
  let w' := after_ (perform (Do_set_volume 30 true) failing_notifier_env
                      started_world) in
  SendspinMpris._running (self w') = true
  /\ SendspinMpris._listener_removers (self w') = attached_removers.
Proof.
  destruct (setters_and_handlers_only_write_state (Do_set_volume 30 true)
              failing_notifier_env started_world eq_refl)
    as (Hflag & Hrem & _).
  split; [rewrite Hflag|rewrite Hrem]; reflexivity.
Defined.

(** The metadata handler up to the end of its notification attempt. *)
Lemma _on_metadata_update_notification (env : Env) (w : World)
    (metadata : Metadata.t) (controller : option ControllerPayload.t) :
  let written :=
    with_metadata
      (keep_or_adopt (Metadata.title metadata) (MprisState.title (state_of w)))
      (keep_or_adopt (Metadata.artist metadata)
         (MprisState.artist (state_of w)))
      (keep_or_adopt (Metadata.album metadata) (MprisState.album (state_of w)))
      (computed_duration metadata (state_of w)) (state_of w) in
  let w' := after_ (_on_metadata_update
                      (ServerStatePayload.mk (Some metadata) controller)
                      env w) in
  notifications (added w w')
  = match SendspinMpris._event_adapter (self w) with
    | Some _ => [(on_title, written)]
    | None => []
    end
  /\ (state_of w' = written
      \/ exists p, state_of w' = MprisState.set_progress_ms (Some p) written).
Proof.
  intros written w'; subst w'.
  rewrite _on_metadata_update_eq; unfold bind; rewrite set_metadata_eq.
  fold written.
  match goal with |- context [emit_change ?s ?a ?b ?e ?w1] =>
    pose proof (emit_change_self s a b e w1) as Hself;
    destruct (emit_change_grows s a b e w1)
      as (new & Hnew & _ & Hnot & _);
    destruct (emit_change s a b e w1) as [[[]|exc] w2]
  end; unfold after_, state_of in *; simpl in *.
  - destruct (computed_progress metadata (SendspinMpris._state (self w)))
      as [p|]; simpl.
    + split; [|right; exists p; rewrite Hself; reflexivity].
      erewrite added_app
        by (simpl; rewrite Hnew, <- !app_assoc; reflexivity).
      simpl; split_trace; rewrite Hnot, app_nil_r; reflexivity.
    + split; [|left; rewrite Hself; reflexivity].
      erewrite added_app by (rewrite Hnew, <- !app_assoc; reflexivity).
      simpl; rewrite Hnot; reflexivity.
  - split; [|left; rewrite Hself; reflexivity].
    erewrite added_app by (rewrite Hnew, <- !app_assoc; reflexivity).
    simpl; rewrite Hnot; reflexivity.
Qed.

(** X11.  A metadata event with a metadata part makes one title
    notification when an event adapter is present, none otherwise, and the
    notification comes before the progress is stored: the state the
    notifier sees is the state the handler leaves but for [progress_ms],
    which is still the old one.  The event never touches playback state,
    volume, mute flag or supported commands.  An event whose fields are all
    undefined leaves the whole state as it was and is notified all the
    same. *)
Theorem metadata_event_notifies_before_progress :
  (forall (env : Env) (w : World) (metadata : Metadata.t)
          (controller : option ControllerPayload.t),
     let w' := after_ (_on_metadata_update
                         (ServerStatePayload.mk (Some metadata) controller)
                         env w) in
     notifications (added w w')
     = match SendspinMpris._event_adapter (self w) with
       | Some _ =>
           [(on_title,
             MprisState.set_progress_ms (MprisState.progress_ms (state_of w))
               (state_of w'))]
       | None => []
       end
     /\ MprisState.playback_state (state_of w')
        = MprisState.playback_state (state_of w)
     /\ MprisState.volume (state_of w') = MprisState.volume (state_of w)
     /\ MprisState.muted (state_of w') = MprisState.muted (state_of w)
     /\ MprisState.supported_commands (state_of w')
        = MprisState.supported_commands (state_of w))
  /\ (forall (env : Env) (w : World)
             (controller : option ControllerPayload.t),
        let w' := after_ (_on_metadata_update
                            (ServerStatePayload.mk
                               (Some (Metadata.mk Undefined Undefined
                                        Undefined Undefined))
                               controller)
                            env w) in
        state_of w' = state_of w
        /\ notifications (added w w')
           = match SendspinMpris._event_adapter (self w) with
             | Some _ => [(on_title, state_of w)]
             | None => []
             end).
Proof.
  split.
  - intros env w metadata controller w'.
    destruct (_on_metadata_update_notification env w metadata controller)
      as (Hnot & Hst).
    fold w' in Hnot, Hst; rewrite Hnot.
    destruct Hst as [Hst|(p & Hst)]; rewrite Hst;
      repeat split; reflexivity.
  - intros env w controller w'.
    destruct (_on_metadata_update_notification env w
                (Metadata.mk Undefined Undefined Undefined Undefined)
                controller) as (Hnot & Hst).
    fold w' in Hnot, Hst; rewrite Hnot.
    unfold computed_duration, computed_progress, keep_or_adopt in *.
    simpl in *.
    assert (Hsame : state_of w' = state_of w).
    { revert Hst; subst w'.
      rewrite _on_metadata_update_eq; unfold bind; rewrite set_metadata_eq.
      unfold computed_duration, computed_progress, keep_or_adopt; simpl.
      match goal with |- context [emit_change ?s ?a ?b ?e ?w1] =>
        pose proof (emit_change_self s a b e w1) as Hself;
        destruct (emit_change s a b e w1) as [[[]|exc] w2]
      end; unfold after_, state_of in *; simpl in *; intros _.
      + destruct (MprisState.progress_ms (SendspinMpris._state (self w)))
          as [p|] eqn:Hp; simpl; rewrite ?Hself; simpl;
          destruct (SendspinMpris._state (self w)); simpl in *;
          rewrite ?Hp; reflexivity.
      + rewrite Hself; simpl.
        destruct (SendspinMpris._state (self w)); reflexivity. }
    split; [exact Hsame|].
    destruct (SendspinMpris._event_adapter (self w)); [|reflexivity].
    destruct (state_of w); reflexivity.
Qed.

(** ** Invariants along a history of requests *)

(** [start()] keeps the wiring invariant: it raises the flag last of all
    the attributes it sets. *)
Lemma start_keeps_wired (env : Env) (w : World) :
  wired_while_running (self w) ->
  wired_while_running (self (after_ (start env w))).
Proof.
  intros Hinv; unfold start, _attach_client_listeners; run_py.
  destruct (MPRIS_AVAILABLE env); simpl; [|exact Hinv].
  destruct (SendspinMpris._running (self w)) eqn:Hrun; simpl;
    [exact Hinv|].
  destruct (running_loop env) as [loop|]; simpl; [|exact Hinv].
  case_outcomes; intros Hup; simpl in Hup;
    try (rewrite Hrun in Hup); try discriminate Hup;
    repeat split; eexists; reflexivity.
Qed.

Lemma perform_keeps_wired (r : Request) (env : Env) (w : World) :
  wired_while_running (self w) ->
  wired_while_running (self (after_ (perform r env w))).
Proof.
  intros Hinv.
  destruct (is_lifecycle r) eqn:Hr.
  - destruct r; try discriminate Hr; simpl.
    + apply start_keeps_wired, Hinv.
    + intros Hup; rewrite stop_lowers_flag in Hup; discriminate Hup.
  - rewrite (perform_only_writes_state r Hr env w).
    exact Hinv.
Qed.

(** X12.  On an object built by [__init__] and used through [start()],
    [stop()], the setters and the listener callbacks only, in any order,
    in any environment and whatever was raised on the way: whenever the
    running flag is up, the loop, the adapter, the server, the event
    adapter and the thread are all set. *)
Theorem running_object_is_wired (history : list (Env * Request))
    (fresh : MprisState.t) (client : Client) (name : string)
    (desktop_entry : option string) (tr : list Effect) :
  wired_while_running
    (self (replay history
             (mkWorld (__init__ fresh client name desktop_entry) tr))).
Proof.
  assert (Hgen : forall w,
            wired_while_running (self w) ->
            wired_while_running (self (replay history w))).
  { induction history as [|[env r] rest IH]; intros w Hinv; [exact Hinv|].
    simpl; apply IH, perform_keeps_wired, Hinv. }
  apply Hgen; intros Hup; discriminate Hup.
Qed.

(** [start()] keeps the remover list in step, whatever it meets. *)
Lemma start_keeps_removers_in_step (env : Env) (w : World) :
  removers_in_step (self w) ->
  removers_in_step (self (after_ (start env w))).
Proof.
  unfold start, _attach_client_listeners; run_py; intros Hinv.
  destruct (MPRIS_AVAILABLE env); simpl; [|exact Hinv].
  destruct (SendspinMpris._running (self w)) eqn:Hrun; simpl;
    [exact Hinv|].
  destruct (running_loop env) as [loop|]; simpl; [|exact Hinv].
  destruct Hinv as [_ Hidle]; specialize (Hidle Hrun).
  case_outcomes; (split; simpl; [|try discriminate; intros _; exact Hidle]);
    rewrite ?Hidle; simpl; unfold attached_removers;
    solve [ eexists; reflexivity ].
Qed.

Lemma perform_keeps_removers_in_step (r : Request) (env : Env) (w : World) :
  (forall x, raises_only_Exception env (Call_remover x)) ->
  removers_in_step (self w) ->
  removers_in_step (self (after_ (perform r env w))).
Proof.
  intros Hexc Hinv.
  destruct (is_lifecycle r) eqn:Hr.
  - destruct r; try discriminate Hr; simpl.
    + apply start_keeps_removers_in_step, Hinv.
    + destruct (SendspinMpris._running (self w)) eqn:Hrun.
      * destruct (stop_running env w Hrun Hexc) as (_ & Hlist & _).
        split; [rewrite Hlist; apply prefix_nil|intros _; exact Hlist].
      * unfold stop; run_py; rewrite Hrun; exact Hinv.
  - rewrite (perform_only_writes_state r Hr env w).
    exact Hinv.
Qed.

(** X13.  On an object built by [__init__] and used through its methods
    and callbacks only, as long as no remover raises anything but an
    instance of [Exception]: the remover list is always an initial part of
    the three removers of one [start()], metadata, group update,
    controller state, so that no listener is ever registered twice, and
    the list is empty whenever the running flag is down. *)
Theorem removers_stay_in_step (history : list (Env * Request))
    (fresh : MprisState.t) (client : Client) (name : string)
    (desktop_entry : option string) (tr : list Effect) :
  removers_raise_only_Exception history ->
  removers_in_step
    (self (replay history
             (mkWorld (__init__ fresh client name desktop_entry) tr))).
Proof.
  intros Hexc.
  assert (Hgen : forall w,
            removers_in_step (self w) ->
            removers_in_step (self (replay history w))).
  { induction Hexc as [|[env r] rest Hstep _ IH]; intros w Hinv;
      [exact Hinv|].
    simpl; apply IH, perform_keeps_removers_in_step; assumption. }
  apply Hgen; split; [apply prefix_nil|reflexivity].
Qed.

(** X13 along a start, a stop with a failing remover and a start that the
    client cuts short. *)
Lemma removers_stay_in_step_witness :
  removers_in_step
    (self (replay [(quiet_env, Do_start); (failing_teardown_env, Do_stop);
                   (listener_failure_env, Do_start)]
             (mkWorld fresh_object []))).
Proof.
  apply (removers_stay_in_step
           [(quiet_env, Do_start); (failing_teardown_env, Do_stop);
            (listener_failure_env, Do_start)]
           empty_state (SendspinClient 0) "Sendspin" None []).
  repeat constructor; intros [[]] tr; simpl; auto.
Defined.

(** ** Without the protocol library *)

Section CallsNobody.

Lemma cnu_ret {A : Type} (a : A) : calls_nobody_unnotified (ret a).
Proof.
  intros env w Hnone; split; [exact Hnone|].
  exists []; split; [symmetry; apply app_nil_r|reflexivity].
Qed.

Lemma cnu_read_self {A : Type} (f : SendspinMpris.t -> A) :
  calls_nobody_unnotified (read_self f).
Proof.
  intros env w Hnone; split; [exact Hnone|].
  exists []; split; [symmetry; apply app_nil_r|reflexivity].
Qed.

Lemma cnu_enter (c : Invocation) : calls_nobody_unnotified (emit (Enter c)).
Proof.
  intros env w Hnone; split; [exact Hnone|].
  exists [Enter c]; split; reflexivity.
Qed.

Lemma cnu_log (lvl : Level) (msg : string) :
  calls_nobody_unnotified (_LOGGER lvl msg).
Proof.
  intros env w Hnone; split; [exact Hnone|].
  exists [Logged lvl msg]; split; reflexivity.
Qed.

Lemma cnu_write_state (f : MprisState.t -> MprisState.t) :
  calls_nobody_unnotified (write_state f).
Proof.
  intros env w Hnone; split; [exact Hnone|].
  exists []; split; [symmetry; apply app_nil_r|reflexivity].
Qed.

Lemma cnu_bind {A B : Type} (m : M A) (k : A -> M B) :
  calls_nobody_unnotified m -> (forall a, calls_nobody_unnotified (k a)) ->
  calls_nobody_unnotified (bind m k).
Proof.
  intros Hm Hk env w Hnone.
  destruct (Hm env w Hnone) as (Hnone1 & new1 & Hnew1 & Hext1).
  unfold bind.
  destruct (m env w) as [[a|e] w1]; unfold after_ in *; simpl in *.
  - destruct (Hk a env w1 Hnone1) as (Hnone2 & new2 & Hnew2 & Hext2).
    unfold after_ in *.
    split; [exact Hnone2|].
    exists (new1 ++ new2); rewrite Hnew2, Hnew1, <- app_assoc.
    split; [reflexivity|].
    rewrite ext_calls_app, Hext1, Hext2; reflexivity.
  - split; [exact Hnone1|].
    exists new1; split; assumption.
Qed.

(** The one place where a setter would call out: the branch is chosen by
    the event adapter, and there is none. *)
Lemma cnu_read_event_adapter {B : Type} (k : option EventAdapter -> M B) :
  calls_nobody_unnotified (k None) ->
  calls_nobody_unnotified (bind (read_self SendspinMpris._event_adapter) k).
Proof.
  intros Hk env w Hnone; unfold bind, read_self; rewrite Hnone.
  exact (Hk env w Hnone).
Qed.

End CallsNobody.

(** Takes a setter or a handler apart along its binds. *)
Ltac calls_nobody :=
  repeat first
    [ apply cnu_ret | apply cnu_read_self | apply cnu_enter | apply cnu_log
    | apply cnu_write_state
    | apply cnu_read_event_adapter; simpl
    | apply cnu_bind; [|intros ?]
    | match goal with
      | |- calls_nobody_unnotified (match ?x with _ => _ end) => destruct x
      | |- calls_nobody_unnotified (let '(_, _) := ?x in _) => destruct x
      end ].

Lemma perform_calls_nobody_unnotified (r : Request) :
  is_lifecycle r = false -> calls_nobody_unnotified (perform r).
Proof.
  destruct r; simpl; try discriminate; intros _.
  - unfold call_set_metadata, set_metadata, read_state; calls_nobody.
  - unfold set_progress; calls_nobody.
  - unfold set_playback_state; calls_nobody.
  - unfold set_volume; calls_nobody.
  - unfold set_supported_commands; calls_nobody.
  - unfold _on_metadata_update, unless_undefined, set_metadata,
      set_progress, read_state; calls_nobody.
  - unfold _on_group_update, set_playback_state; calls_nobody.
  - unfold _on_controller_state, set_supported_commands, set_volume;
      calls_nobody.
Qed.

(** One request on a platform without the library, on an object that is
    not running and has no event adapter. *)
Lemma perform_unavailable (r : Request) (env : Env) (w : World) :
  MPRIS_AVAILABLE env = false ->
  SendspinMpris._running (self w) = false ->
  SendspinMpris._event_adapter (self w) = None ->
  let w' := after_ (perform r env w) in
  SendspinMpris._running (self w') = false
  /\ SendspinMpris._event_adapter (self w') = None
  /\ ext_calls (trace w') = ext_calls (trace w).
Proof.
  intros Hoff Hidle Hnone w'; subst w'.
  destruct (is_lifecycle r) eqn:Hr.
  - destruct r; try discriminate Hr; simpl.
    + rewrite (start_unavailable env w Hoff); simpl.
      rewrite ext_calls_app, app_nil_r; repeat split; assumption.
    + unfold stop; run_py; rewrite Hidle; repeat split; assumption.
  - destruct (perform_calls_nobody_unnotified r Hr env w Hnone)
      as (Hnone' & new & Hnew & Hext).
    rewrite (perform_only_writes_state r Hr env w) at 1.
    rewrite Hnew, ext_calls_app, Hext, app_nil_r.
    repeat split; assumption.
Qed.

(** X14.  On a platform without the protocol library the object is inert.
    Built by [__init__] and used through its methods and callbacks in any
    order, it never makes an external call, no constructor, no thread, no
    listener registration, no notification, it never raises the running
    flag and it never holds an event adapter. *)
Theorem object_is_inert_without_library (history : list (Env * Request))
    (fresh : MprisState.t) (client : Client) (name : string)
    (desktop_entry : option string) :
  library_unavailable history ->
  let w' := replay history
              (mkWorld (__init__ fresh client name desktop_entry) []) in
  ext_calls (trace w') = []
  /\ SendspinMpris._running (self w') = false
  /\ SendspinMpris._event_adapter (self w') = None
  /\ SendspinMpris._listener_removers (self w') = [].
Proof.
  intros Hoff.
  assert (Hgen : forall w,
            SendspinMpris._running (self w) = false ->
            SendspinMpris._event_adapter (self w) = None ->
            SendspinMpris._running (self (replay history w)) = false
            /\ SendspinMpris._event_adapter (self (replay history w)) = None
            /\ ext_calls (trace (replay history w)) = ext_calls (trace w)).
  { induction Hoff as [|[env r] rest Hstep _ IH]; intros w Hidle Hnone;
      [repeat split; assumption|].
    simpl in *.
    destruct (perform_unavailable r env w Hstep Hidle Hnone)
      as (Hidle' & Hnone' & Hext').
    destruct (IH _ Hidle' Hnone') as (Hidle'' & Hnone'' & Hext'').
    rewrite Hext'', Hext'; repeat split; assumption. }
  intros w'; subst w'.
  destruct (Hgen (mkWorld (__init__ fresh client name desktop_entry) [])
              eq_refl eq_refl) as (Hidle & Hnone & Hext).
  split; [exact Hext|].
  split; [exact Hidle|].
  split; [exact Hnone|].
  (* the remover list changes in [start()] and [stop()] only *)
  clear Hidle Hnone Hext Hgen.
  assert (Hrem : forall w,
            SendspinMpris._running (self w) = false ->
            SendspinMpris._listener_removers (self w) = [] ->
            SendspinMpris._running (self (replay history w)) = false
            /\ SendspinMpris._listener_removers (self (replay history w))
               = []).
  { induction Hoff as [|[env r] rest Hstep _ IH]; intros w Hidle Hlist;
      [split; assumption|].
    simpl in *; apply IH.
    - destruct (is_lifecycle r) eqn:Hr.
      + destruct r; try discriminate Hr; simpl.
        * rewrite (start_unavailable env w Hstep); exact Hidle.
        * unfold stop; run_py; rewrite Hidle; exact Hidle.
      + rewrite (perform_only_writes_state r Hr env w); exact Hidle.
    - destruct (is_lifecycle r) eqn:Hr.
      + destruct r; try discriminate Hr; simpl.
        * rewrite (start_unavailable env w Hstep); exact Hlist.
        * unfold stop; run_py; rewrite Hidle; exact Hlist.
      + rewrite (perform_only_writes_state r Hr env w); exact Hlist. }
  apply Hrem; reflexivity.
Qed.

(** X14 along a start, a setter call and a stop. *)
Lemma object_is_inert_without_library_witness :
  let w' := replay [(unavailable_env, Do_start);
                    (unavailable_env, Do_set_volume 30 true);
                    (unavailable_env, Do_stop)]
              (mkWorld fresh_object []) in
  ext_calls (trace w') = []
  /\ SendspinMpris._running (self w') = false
  /\ SendspinMpris._event_adapter (self w') = None
  /\ SendspinMpris._listener_removers (self w') = [].
Proof.
  apply (object_is_inert_without_library
           [(unavailable_env, Do_start);
            (unavailable_env, Do_set_volume 30 true);
            (unavailable_env, Do_stop)]
           empty_state (SendspinClient 0) "Sendspin" None).
  repeat constructor.
Defined.

(** ** Starting again *)

(** The object a [start()] that goes through leaves. *)
Lemma start_goes_through (env : Env) (w : World) (loop : Loop) :
  MPRIS_AVAILABLE env = true ->
  SendspinMpris._running (self w) = false ->
  running_loop env = Some loop ->
  (forall c, In c start_calls -> always_returns env c) ->
  let adapter :=
    SendspinMprisAdapter (SendspinMpris._client (self w)) loop
      (SendspinMpris._desktop_entry (self w)) in
  let server := MprisServer (SendspinMpris._name (self w)) adapter in
  fst (start env w) = Returns tt
  /\ self (after_ (start env w))
     = SendspinMpris.mk (SendspinMpris._client (self w))
         (SendspinMpris._name (self w))
         (SendspinMpris._desktop_entry (self w)) (Some loop)
         (SendspinMpris._state (self w)) (Some adapter) (Some server)
         (Some (MprisEventAdapter server))
         (Some (DaemonThread "mpris-server" server)) true
         (SendspinMpris._listener_removers (self w) ++ attached_removers).
Proof.
  intros Hon Hidle Hloop Hcoop adapter server.
  unfold start, _attach_client_listeners; run_py.
  rewrite Hon; simpl; rewrite Hidle, Hloop; simpl.
  rewrite !Hcoop by (unfold start_calls; simpl; tauto); simpl.
  rewrite <- !app_assoc; split; reflexivity.
Qed.

(** The end of [stop] keeps what identifies the object. *)
Lemma stop_after_removals_identity (env : Env) (w : World) :
  let w' := after_ (stop_after_removals env w) in
  SendspinMpris._client (self w') = SendspinMpris._client (self w)
  /\ SendspinMpris._name (self w') = SendspinMpris._name (self w)
  /\ SendspinMpris._desktop_entry (self w')
     = SendspinMpris._desktop_entry (self w)
  /\ SendspinMpris._loop (self w') = SendspinMpris._loop (self w)
  /\ SendspinMpris._adapter (self w') = SendspinMpris._adapter (self w).
Proof.
  unfold stop_after_removals; run_py.
  destruct (SendspinMpris._server (self w)) as [srv|]; simpl;
    [destruct (ext_outcome env Server_quit (trace w)) as [e|]; simpl;
     [destruct (isinstance_Exception e); simpl|]|];
    try (destruct (SendspinMpris._thread (self w)) as [th|]; simpl;
         [case_outcomes|]);
    repeat split; reflexivity.
Qed.

(** [stop()] never changes client, name, desktop entry, loop or adapter. *)
Lemma stop_keeps_identity (env : Env) (w : World) :
  let w' := after_ (stop env w) in
  SendspinMpris._client (self w') = SendspinMpris._client (self w)
  /\ SendspinMpris._name (self w') = SendspinMpris._name (self w)
  /\ SendspinMpris._desktop_entry (self w')
     = SendspinMpris._desktop_entry (self w)
  /\ SendspinMpris._loop (self w') = SendspinMpris._loop (self w)
  /\ SendspinMpris._adapter (self w') = SendspinMpris._adapter (self w).
Proof.
  intros w'; subst w'.
  destruct (SendspinMpris._running (self w)) eqn:Hrun.
  - rewrite (stop_running_eq env w Hrun); unfold bind at 1 2 3 4 5.
    match goal with |- context [for_each ?rs ?body env ?w0] =>
      pose proof (remove_listeners_self env rs w0) as Hself;
      destruct (for_each rs body env w0) as [[[]|e] w1]
    end; unfold after_ in *; simpl in *.
    + destruct (stop_after_removals_identity env w1)
        as (Hc & Hn & Hd & Hl & Ha).
      unfold after_ in *.
      rewrite Hc, Hn, Hd, Hl, Ha, Hself; repeat split; reflexivity.
    + rewrite Hself; repeat split; reflexivity.
  - unfold stop; run_py; rewrite Hrun; repeat split; reflexivity.
Qed.

(** The external calls of a [start()] that goes through. *)
Lemma start_goes_through_calls (env : Env) (w : World) (loop : Loop) :
  MPRIS_AVAILABLE env = true ->
  SendspinMpris._running (self w) = false ->
  running_loop env = Some loop ->
  (forall c, In c start_calls -> always_returns env c) ->
  ext_calls (added w (after_ (start env w))) = start_calls.
Proof.
  intros Hon Hidle Hloop Hcoop.
  unfold start, _attach_client_listeners; run_py.
  rewrite Hon; simpl; rewrite Hidle, Hloop; simpl.
  rewrite !Hcoop by (unfold start_calls; simpl; tauto); simpl.
  unfold added; simpl; rewrite <- !app_assoc; simpl.
  rewrite drop_app_length; reflexivity.
Qed.

(** X15.  Stopping and starting again builds everything anew.  When every
    collaborator answers, [start()], [stop()], [start()] on an object
    that was not running and had no removers returns three times; the
    [stop()] calls the three removers of the first [start()] and drops
    them; the second [start()] makes the three constructions, the thread
    start and the three registrations all over again, and leaves the flag
    up and exactly three removers, not six; the state record, the client,
    the name and the desktop entry are those of the beginning. *)
Theorem restart_builds_anew (env : Env) (w : World) (loop : Loop) :
  MPRIS_AVAILABLE env = true ->
  SendspinMpris._running (self w) = false ->
  SendspinMpris._listener_removers (self w) = [] ->
  running_loop env = Some loop ->
  (forall c, In c start_calls -> always_returns env c) ->
  (forall r, raises_only_Exception env (Call_remover r)) ->
  raises_only_Exception env Server_quit ->
  always_returns env (Thread_join 1) ->
  let w1 := after_ (start env w) in
  let w2 := after_ (stop env w1) in
  let w3 := after_ (start env w2) in
  fst (start env w) = Returns tt
  /\ fst (stop env w1) = Returns tt
  /\ fst (start env w2) = Returns tt
  /\ removals (added w1 w2) = attached_removers
  /\ ext_calls (added w2 w3) = start_calls
  /\ SendspinMpris._running (self w3) = true
  /\ SendspinMpris._listener_removers (self w3) = attached_removers
  /\ state_of w3 = state_of w
  /\ SendspinMpris._client (self w3) = SendspinMpris._client (self w)
  /\ SendspinMpris._name (self w3) = SendspinMpris._name (self w)
  /\ SendspinMpris._desktop_entry (self w3)
     = SendspinMpris._desktop_entry (self w).
Proof.
  intros Hon Hidle Hlist Hloop Hcoop Hexc Hquit Hjoin w1 w2 w3.
  destruct (start_goes_through env w loop Hon Hidle Hloop Hcoop)
    as (Hret1 & Hself1).
  fold w1 in Hself1; rewrite Hlist in Hself1; simpl in Hself1.
  assert (Hrun1 : SendspinMpris._running (self w1) = true)
    by (rewrite Hself1; reflexivity).
  destruct (stop_running env w1 Hrun1 Hexc)
    as (Hrem2 & Hlist2 & Hflag2 & _ & Hst2 & Hret2).
  destruct (Hret2 Hquit Hjoin) as (Hreturns2 & _ & _).
  destruct (stop_keeps_identity env w1) as (Hc2 & Hn2 & Hd2 & _ & _).
  fold w2 in Hrem2, Hlist2, Hflag2, Hst2, Hc2, Hn2, Hd2.
  destruct (start_goes_through env w2 loop Hon Hflag2 Hloop Hcoop)
    as (Hret3 & Hself3).
  pose proof (start_goes_through_calls env w2 loop Hon Hflag2 Hloop Hcoop)
    as Hcalls3.
  fold w3 in Hself3, Hcalls3.
  unfold state_of in *.
  split; [exact Hret1|].
  split; [exact Hreturns2|].
  split; [exact Hret3|].
  split; [rewrite Hrem2, Hself1; reflexivity|].
  split; [exact Hcalls3|].
  rewrite Hself3; simpl.
  split; [reflexivity|].
  split; [rewrite Hlist2; reflexivity|].
  split; [rewrite Hst2, Hself1; reflexivity|].
  rewrite Hc2, Hn2, Hd2, Hself1; repeat split; reflexivity.
Qed.

(** X15 with a remover and a server shutdown that fail in between. *)
Lemma restart_builds_anew_witness :
  let w := mkWorld fresh_object [] in
  let w1 := after_ (start failing_teardown_env w) in
  let w2 := after_ (stop failing_teardown_env w1) in
  let w3 := after_ (start failing_teardown_env w2) in
  fst (start failing_teardown_env w) = Returns tt
  /\ fst (stop failing_teardown_env w1) = Returns tt
  /\ fst (start failing_teardown_env w2) = Returns tt
  /\ removals (added w1 w2) = attached_removers
  /\ ext_calls (added w2 w3) = start_calls
  /\ SendspinMpris._running (self w3) = true
  /\ SendspinMpris._listener_removers (self w3) = attached_removers
  /\ state_of w3 = empty_state
  /\ SendspinMpris._client (self w3) = SendspinClient 0
  /\ SendspinMpris._name (self w3) = "Sendspin"
  /\ SendspinMpris._desktop_entry (self w3) = None.
Proof.
  assert (Hexc : forall r,
            raises_only_Exception failing_teardown_env (Call_remover r)).
  { intros [[]] tr; simpl; auto. }
  assert (Hcoop : forall c, In c start_calls ->
                    always_returns failing_teardown_env c).
  { intros c Hin tr; unfold start_calls in Hin; simpl in Hin.
    decompose [or] Hin; subst; try reflexivity; contradiction. }
  exact (restart_builds_anew failing_teardown_env
           (mkWorld fresh_object []) (EventLoop 0)
           eq_refl eq_refl eq_refl eq_refl Hcoop Hexc
           (fun _ => eq_refl) (fun _ => eq_refl)).
Defined.

(** ** After [stop()] *)

(** However it ends, [stop()] on a running object leaves no event adapter
    and the state as it was. *)
Lemma stop_drops_event_adapter (env : Env) (w : World) :
  SendspinMpris._running (self w) = true ->
  SendspinMpris._event_adapter (self (after_ (stop env w))) = None
  /\ state_of (after_ (stop env w)) = state_of w.
Proof.
  intros Hrun; rewrite (stop_running_eq env w Hrun); unfold bind at 1 2.
  match goal with |- context [for_each ?rs ?body env ?w0] =>
    pose proof (remove_listeners_self env rs w0) as Hself;
    destruct (for_each rs body env w0) as [[[]|e] w1]
  end; unfold after_, state_of in *; simpl in *.
  - destruct (stop_after_removals_run env w1)
      as (new & _ & _ & _ & _ & Hea & Hst & _).
    unfold after_, state_of in *; simpl in *.
    rewrite Hea, Hst, Hself; split; reflexivity.
  - rewrite Hself; split; reflexivity.
Qed.

(** X16.  Once [stop()] has been called on a running object, however that
    call ended, the setters and the listener callbacks still write the
    state but reach nobody: whatever is requested next, short of a new
    [start()], makes no external call and leaves the object without event
    adapter. *)
Theorem after_stop_nobody_is_notified (env1 env2 : Env) (w : World)
    (r : Request) :
  SendspinMpris._running (self w) = true ->
  is_lifecycle r = false ->
  let w1 := after_ (stop env1 w) in
  let w2 := after_ (perform r env2 w1) in
  ext_calls (added w1 w2) = []
  /\ notifications (added w1 w2) = []
  /\ SendspinMpris._event_adapter (self w2) = None
  /\ SendspinMpris._running (self w2) = false.
Proof.
  intros Hrun Hr w1 w2.
  destruct (stop_drops_event_adapter env1 w Hrun) as (Hnone & _).
  fold w1 in Hnone.
  destruct (perform_calls_nobody_unnotified r Hr env2 w1 Hnone)
    as (Hnone2 & new & Hnew & Hext).
  fold w2 in Hnone2, Hnew.
  rewrite (added_app w1 w2 new Hnew).
  split; [exact Hext|].
  split; [|split; [exact Hnone2|]].
  - clear - Hext; induction new as [|[c|c st|lvl msg] new IH]; simpl in *;
      try reflexivity; try (apply IH; exact Hext); discriminate Hext.
  - subst w2; rewrite (perform_only_writes_state r Hr env2 w1); simpl.
    apply stop_lowers_flag.
Qed.

(** X16 for [set_volume] after a stop. *)
Lemma after_stop_nobody_is_notified_witness :
  let w1 := after_ (stop interrupted_env started_world) in
  let w2 := after_ (perform (Do_set_volume 30 true) quiet_env w1) in
  ext_calls (added w1 w2) = []
  /\ notifications (added w1 w2) = []
  /\ SendspinMpris._event_adapter (self w2) = None
  /\ SendspinMpris._running (self w2) = false.
Proof.
  exact (after_stop_nobody_is_notified interrupted_env quiet_env
           started_world (Do_set_volume 30 true) eq_refl eq_refl).
Defined.

(** X17.  [start()] and [stop()] never write the state record, whatever
    they meet: title, artist, album, duration, progress, playback state,
    volume, mute flag and commands outlive a stop and a restart. *)
Theorem lifecycle_keeps_the_state (env : Env) (w : World) :
  state_of (after_ (start env w)) = state_of w
  /\ state_of (after_ (stop env w)) = state_of w.
Proof.
  split.
  - unfold start, _attach_client_listeners; run_py.
    destruct (MPRIS_AVAILABLE env); simpl; [|reflexivity].
    destruct (SendspinMpris._running (self w)); simpl; [reflexivity|].
    destruct (running_loop env) as [loop|]; simpl; [|reflexivity].
    case_outcomes; reflexivity.
  - destruct (SendspinMpris._running (self w)) eqn:Hrun.
    + apply stop_drops_event_adapter, Hrun.
    + unfold stop; run_py; rewrite Hrun; reflexivity.
Qed.
